(** * libpurecoollink: Dyson Pure Cool v2 state messages

    A shallow embedding of [libpurecoollink/dyson_pure_state_v2.py]: the two
    message classifiers, the field extractor duplicated in both classes, the
    two constructors and the two [__repr__] methods, followed by the
    properties of the specification that are about them.

    Python values are an inductive type, a raised exception is the [Raise]
    branch of a result type, and statements are sequenced with the bind of
    that type, in the order in which Python evaluates them. *)

From Stdlib Require Import ZArith Ascii String List Bool Floats.
From stdpp Require Import gmap strings.

Set Warnings "-register-all".
Open Scope string_scope.

(** ** Python values

    What [json.loads] can return: [None], [bool], [int], [float], [str],
    [list] and [dict] with [str] keys.  A [str] is a [string] with one
    character per element; a [dict] is a finite map. *)

Inductive value : Type :=
  | VNone
  | VBool (b : bool)
  | VInt (z : Z)
  | VFloat (f : float)
  | VStr (s : string)
  | VList (l : list value)
  | VDict (d : gmap string value).

(** A Python number that is an [int] or a [float]. *)
Inductive number : Type :=
  | NInt (z : Z)
  | NFloat (f : float).

Definition value_of_number (n : number) : value :=
  match n with
  | NInt z => VInt z
  | NFloat f => VFloat f
  end.

(** ** Exceptions and results *)

Inductive exn : Type :=
  | JSONDecodeError
  | KeyError (k : value)
  | IndexError
  | TypeError
  | ValueError
  | OverflowError
  | RecursionError.

Inductive result (A : Type) : Type :=
  | Ok (a : A)
  | Raise (e : exn).

Arguments Ok {A} a.
Arguments Raise {A} e.

Definition bind {A B : Type} (c : result A) (k : A -> result B) : result B :=
  match c with
  | Ok a => k a
  | Raise e => Raise e
  end.

Notation "'let!' x ':=' c 'in' k" := (bind c (fun x => k))
  (at level 10, x name, c at level 100, k at level 200).

Definition raises {A : Type} (c : result A) : Prop := exists e, c = Raise e.

(** ** Python operations used by the module *)

(** [isinstance(v, list)] *)
Definition isinstance_list (v : value) : bool :=
  match v with
  | VList _ => true
  | _ => false
  end.

(** [l[i]] on a list, with Python's negative indices. *)
Definition list_item (l : list value) (i : Z) : result value :=
  let n := Z.of_nat (length l) in
  let j := if (i <? 0)%Z then (i + n)%Z else i in
  if ((0 <=? j)%Z && (j <? n)%Z)%bool
  then match l !! Z.to_nat j with
       | Some x => Ok x
       | None => Raise IndexError
       end
  else Raise IndexError.

(** [s[i]] on a str: the one-character string at that position. *)
Definition str_item (s : string) (i : Z) : result value :=
  let n := Z.of_nat (String.length s) in
  let j := if (i <? 0)%Z then (i + n)%Z else i in
  if ((0 <=? j)%Z && (j <? n)%Z)%bool
  then match String.get (Z.to_nat j) s with
       | Some c => Ok (VStr (String c EmptyString))
       | None => Raise IndexError
       end
  else Raise IndexError.

(** [o[k]]: a dict is looked up ([KeyError] carries the key; a list or a
    dict is not hashable), a list and a str take an integer ([bool] is an
    [int]), anything else is not subscriptable. *)
Definition subscript (o k : value) : result value :=
  match o with
  | VDict d =>
      match k with
      | VStr s => match d !! s with
                  | Some v => Ok v
                  | None => Raise (KeyError k)
                  end
      | VList _ | VDict _ => Raise TypeError
      | _ => Raise (KeyError k)
      end
  | VList l =>
      match k with
      | VInt i => list_item l i
      | VBool b => list_item l (if b then 1 else 0)%Z
      | _ => Raise TypeError
      end
  | VStr s =>
      match k with
      | VInt i => str_item s i
      | VBool b => str_item s (if b then 1 else 0)%Z
      | _ => Raise TypeError
      end
  | _ => Raise TypeError
  end.

(** [v == s] for a string literal [s]: a str is equal to a str only. *)
Definition eq_str (v : value) (s : string) : bool :=
  match v with
  | VStr t => String.eqb t s
  | _ => false
  end.

(** [v in [s1, ..., sn]] for a list of string literals. *)
Definition in_strs (v : value) (l : list string) : bool :=
  existsb (eq_str v) l.

(** ** utils.printable_fields *)

Section Utils.

(** The text written for a field's value. *)
Variable field_text : value -> string.

(** Modelled from the spec: [printable_fields] is imported from
    [libpurecoollink/utils.py], which is not among the sources.  The
    specification (4.3) says that the fields are listed as [name=value]
    pairs and that exactly the fields with a non-null value are included;
    how a value is written is left to [field_text]. *)
Fixpoint printable_fields (fields : list (string * value)) : list string :=
  match fields with
  | [] => []
  | (name, VNone) :: rest => printable_fields rest
  | (name, v) :: rest => (name ++ "=" ++ field_text v) :: printable_fields rest
  end.

End Utils.

(** ** class DysonPureCoolV2State *)

Module DysonPureCoolV2State.

Record t : Type := Build {
  _state : value;
  _fan_power : value;
  _front_direction : value;
  _auto_mode : value;
  _oscillation_status : value;
  _oscillation : value;
  _night_mode : value;
  _continuous_monitoring : value;
  _fan_state : value;
  _night_mode_speed : value;
  _speed : value;
  _carbon_filter_state : value;
  _hepa_filter_state : value;
  _sleep_timer : value;
  _oscillation_angle_low : value;
  _oscillation_angle_high : value
}.

(** The conditional expression evaluates [state[field]] for the test and
    once more in the branch that is taken. *)
Definition _get_field_value (state : value) (field : string) : result value :=
  let! c := subscript state (VStr field) in
  if isinstance_list c
  then (let! v := subscript state (VStr field) in subscript v (VInt 1))
  else subscript state (VStr field).

Section WithBuiltins.

(** [json.loads] belongs to Python's library, not to this module. *)
Variable json_loads : string -> result value.
Variable field_text : value -> string.

Definition is_state_message (payload : string) : result bool :=
  let! json_message := json_loads payload in
  let! tag := subscript json_message (VStr "msg") in
  Ok (in_strs tag ["CURRENT-STATE"; "STATE-CHANGE"]).

Definition __init__ (payload : string) : result t :=
  let! json_message := json_loads payload in
  let! state := subscript json_message (VStr "product-state") in
  let! fan_power := _get_field_value state "fpwr" in
  let! front_direction := _get_field_value state "fdir" in
  let! auto_mode := _get_field_value state "auto" in
  let! oscillation_status := _get_field_value state "oscs" in
  let! oscillation := _get_field_value state "oson" in
  let! night_mode := _get_field_value state "nmod" in
  let! continuous_monitoring := _get_field_value state "rhtm" in
  let! fan_state := _get_field_value state "fnst" in
  let! night_mode_speed := _get_field_value state "nmdv" in
  let! speed := _get_field_value state "fnsp" in
  let! carbon_filter_state := _get_field_value state "cflr" in
  let! hepa_filter_state := _get_field_value state "hflr" in
  let! sleep_timer := _get_field_value state "sltm" in
  let! oscillation_angle_low := _get_field_value state "osal" in
  let! oscillation_angle_high := _get_field_value state "osau" in
  Ok (Build state fan_power front_direction auto_mode oscillation_status
        oscillation night_mode continuous_monitoring fan_state
        night_mode_speed speed carbon_filter_state hepa_filter_state
        sleep_timer oscillation_angle_low oscillation_angle_high).

(** Each property returns the stored attribute. *)
Definition fan_power (self : t) : value := _fan_power self.
Definition front_direction (self : t) : value := _front_direction self.
Definition auto_mode (self : t) : value := _auto_mode self.
Definition oscillation_status (self : t) : value := _oscillation_status self.
Definition oscillation (self : t) : value := _oscillation self.
Definition night_mode (self : t) : value := _night_mode self.
Definition continuous_monitoring (self : t) : value :=
  _continuous_monitoring self.
Definition fan_state (self : t) : value := _fan_state self.
Definition night_mode_speed (self : t) : value := _night_mode_speed self.
Definition speed (self : t) : value := _speed self.
Definition carbon_filter_state (self : t) : value := _carbon_filter_state self.
Definition hepa_filter_state (self : t) : value := _hepa_filter_state self.
Definition sleep_timer (self : t) : value := _sleep_timer self.
Definition oscillation_angle_low (self : t) : value :=
  _oscillation_angle_low self.
Definition oscillation_angle_high (self : t) : value :=
  _oscillation_angle_high self.

(** The list [fields] of [__repr__]. *)
Definition repr_fields (self : t) : list (string * value) :=
  [("fan_power", fan_power self);
   ("front_direction", front_direction self);
   ("auto_mode", auto_mode self);
   ("oscillation_status", oscillation_status self);
   ("oscillation", oscillation self);
   ("night_mode", night_mode self);
   ("continuous_monitoring", continuous_monitoring self);
   ("fan_state", fan_state self);
   ("night_mode_speed", night_mode_speed self);
   ("speed", speed self);
   ("carbon_filter_state", carbon_filter_state self);
   ("hepa_filter_state", hepa_filter_state self);
   ("sleep_timer", sleep_timer self);
   ("oscillation_angle_low", oscillation_angle_low self);
   ("oscillation_angle_high", oscillation_angle_high self)].

Definition __repr__ (self : t) : string :=
  "DysonPureCoolV2State("
    ++ String.concat "," (printable_fields field_text (repr_fields self))
    ++ ")".

End WithBuiltins.

End DysonPureCoolV2State.

(** ** class DysonEnvironmentalSensorV2State *)

Module DysonEnvironmentalSensorV2State.

(** [_temperature] is the int [0] or a float; the other attributes are
    ints. *)
Record t : Type := Build {
  _temperature : number;
  _humidity : Z;
  _particulate_matter_25 : Z;
  _particulate_matter_10 : Z;
  _volatile_organic_compounds : Z;
  _nitrogen_dioxide : Z;
  _p25r : Z;
  _p10r : Z;
  _sleep_timer : Z
}.

Definition __get_field_value (state : value) (field : string) : result value :=
  let! c := subscript state (VStr field) in
  if isinstance_list c
  then (let! v := subscript state (VStr field) in subscript v (VInt 1))
  else subscript state (VStr field).

Section WithBuiltins.

(** [json.loads] and the builtins [int], [float] and [str] belong to Python,
    not to this module. *)
Variable json_loads : string -> result value.
Variable py_int : value -> result Z.
Variable py_float : value -> result float.
Variable py_str : value -> string.
Variable field_text : value -> string.

Definition is_environmental_state_message (payload : string) : result bool :=
  let! json_message := json_loads payload in
  let! tag := subscript json_message (VStr "msg") in
  Ok (in_strs tag ["ENVIRONMENTAL-CURRENT-SENSOR-DATA"]).

Definition __init__ (payload : string) : result t :=
  let! json_message := json_loads payload in
  let! data := subscript json_message (VStr "data") in
  let! temperature := __get_field_value data "tact" in
  let! _temperature :=
    (if eq_str temperature "OFF" then Ok (NInt 0)
     else let! f := py_float temperature in Ok (NFloat (f / 10)%float)) in
  let! humidity := __get_field_value data "hact" in
  let! _humidity :=
    (if eq_str humidity "OFF" then Ok 0%Z else py_int humidity) in
  let! pm25 := __get_field_value data "pm25" in
  let! _particulate_matter_25 := py_int pm25 in
  let! pm10 := __get_field_value data "pm10" in
  let! _particulate_matter_10 := py_int pm10 in
  let! volatile_organic_compounds := __get_field_value data "va10" in
  let! _volatile_organic_compounds :=
    (if eq_str volatile_organic_compounds "INIT" then Ok 0%Z
     else py_int volatile_organic_compounds) in
  let! noxl := __get_field_value data "noxl" in
  let! _nitrogen_dioxide := py_int noxl in
  let! p25r := __get_field_value data "p25r" in
  let! _p25r := py_int p25r in
  let! p10r := __get_field_value data "p10r" in
  let! _p10r := py_int p10r in
  let! sltm := __get_field_value data "sltm" in
  let! _sleep_timer := (if eq_str sltm "OFF" then Ok 0%Z else py_int sltm) in
  Ok (Build _temperature _humidity _particulate_matter_25
        _particulate_matter_10 _volatile_organic_compounds _nitrogen_dioxide
        _p25r _p10r _sleep_timer).

Definition temperature (self : t) : number := _temperature self.
Definition humidity (self : t) : Z := _humidity self.
Definition particulate_matter_25 (self : t) : Z := _particulate_matter_25 self.
Definition particulate_matter_10 (self : t) : Z := _particulate_matter_10 self.
Definition volatile_organic_compounds (self : t) : Z :=
  _volatile_organic_compounds self.
Definition nitrogen_dioxide (self : t) : Z := _nitrogen_dioxide self.
Definition p25r (self : t) : Z := _p25r self.
Definition p10r (self : t) : Z := _p10r self.
Definition sleep_timer (self : t) : Z := _sleep_timer self.

(** The list [fields] of [__repr__]: every value goes through [str]. *)
Definition repr_fields (self : t) : list (string * value) :=
  [("temperature", VStr (py_str (value_of_number (temperature self))));
   ("humidity", VStr (py_str (VInt (humidity self))));
   ("particulate_matter_25", VStr (py_str (VInt (particulate_matter_25 self))));
   ("particulate_matter_10", VStr (py_str (VInt (particulate_matter_10 self))));
   ("volatile_organic_compounds",
     VStr (py_str (VInt (volatile_organic_compounds self))));
   ("nitrogen_dioxide", VStr (py_str (VInt (nitrogen_dioxide self))));
   ("p25r", VStr (py_str (VInt (p25r self))));
   ("p10r", VStr (py_str (VInt (p10r self))));
   ("sleep_timer", VStr (py_str (VInt (sleep_timer self))))].

Definition __repr__ (self : t) : string :=
  "DysonEnvironmentalSensorV2State("
    ++ String.concat "," (printable_fields field_text (repr_fields self))
    ++ ")".

End WithBuiltins.

End DysonEnvironmentalSensorV2State.

(** ** Builtins for closed examples

    The theorems below hold for every [json.loads], [int], [float] and
    [str].  To run the constructors on concrete payloads this module gives
    a decoder and the two conversions for texts whose characters are below
    256, one character of a [string] being one character of the Python
    [str]:
    - the decoder reads objects, arrays, strings with their escapes,
      integers, numbers with a fraction or an exponent, [true], [false],
      [null], [NaN], [Infinity] and [-Infinity];
    - the conversions read a sign, digits with single underscores between
      them, a fraction, an exponent, [inf], [infinity] and [nan], with
      white space around, and round a decimal to the nearest binary64
      float, ties to even.
    Outside it: an escape [\u] of a character from 256 on, which the
    decoder rejects, and the limits that Python sets on the nesting depth
    and on the number of digits of an [int]. *)

Module Sample.

Definition quote : ascii := ascii_of_nat 34.

(** Payloads are written with ['] for the double quote. *)
Fixpoint json_text (s : string) : string :=
  match s with
  | EmptyString => EmptyString
  | String c s' =>
      String (if Ascii.eqb c "'"%char then quote else c) (json_text s')
  end.

(** *** Numbers *)

Definition digit (c : ascii) : option Z :=
  let n := Z.of_nat (nat_of_ascii c) in
  if ((48 <=? n)%Z && (n <=? 57)%Z)%bool then Some (n - 48)%Z else None.

(** The digits that follow the first one: their value added to [acc], how
    many were read added to [count], and what follows them.  With
    [underscores] a single underscore may stand between two digits. *)
Fixpoint more_digits (underscores : bool) (acc count : Z) (s : string)
  : Z * Z * string :=
  match s with
  | String c s' =>
      match digit c with
      | Some d => more_digits underscores (10 * acc + d)%Z (count + 1)%Z s'
      | None =>
          if (underscores && Ascii.eqb c "_"%char)%bool
          then match s' with
               | String c' s'' =>
                   match digit c' with
                   | Some d =>
                       more_digits underscores (10 * acc + d)%Z
                         (count + 1)%Z s''
                   | None => (acc, count, s)
                   end
               | EmptyString => (acc, count, s)
               end
          else (acc, count, s)
      end
  | EmptyString => (acc, count, s)
  end.

(** A nonempty run of digits: its value, its length, and what follows. *)
Definition digitpart (underscores : bool) (s : string)
  : option (Z * Z * string) :=
  match s with
  | String c s' =>
      match digit c with
      | Some d => Some (more_digits underscores d 1 s')
      | None => None
      end
  | EmptyString => None
  end.

(** A sign, if there is one ([plus] says whether [+] is one). *)
Definition sign (plus : bool) (s : string) : bool * string :=
  match s with
  | String c r =>
      if Ascii.eqb c "-"%char then (true, r)
      else if (plus && Ascii.eqb c "+"%char)%bool then (false, r)
      else (false, s)
  | EmptyString => (false, s)
  end.

(** An exponent, if a complete one is there: [e] or [E], a sign, digits. *)
Definition exponent (underscores : bool) (s : string)
  : option (Z * string) :=
  match s with
  | String c r =>
      if (Ascii.eqb c "e"%char || Ascii.eqb c "E"%char)%bool
      then let '(neg, r1) := sign true r in
           match digitpart underscores r1 with
           | Some (x, _, r2) => Some (if neg then (- x)%Z else x, r2)
           | None => None
           end
      else None
  | EmptyString => None
  end.

(** The float nearest to an integer (ties to even); infinite when the
    integer is out of range. *)
Definition float_of_Z (z : Z) : float :=
  SF2Prim (binary_normalize prec emax z 0 false).

(** The float nearest to [n / d] for positive [n] and [d], ties to even:
    the quotient is taken with at least 64 bits and its last bit records
    whether the division left a remainder. *)
Definition float_of_ratio (n d : Z) : float :=
  let k := Z.max 0 (64 + Z.log2 d - Z.log2 n) in
  let q := (n * 2 ^ k / d)%Z in
  let sticky := if ((n * 2 ^ k) mod d =? 0)%Z then q else Z.lor q 1 in
  SF2Prim (binary_normalize prec emax sticky (- k) false).

(** The float nearest to [m * 10 ^ x] for [m >= 0] written with [count]
    digits.  From 10 ^ 310 on the result is infinite and below 10 ^ -330
    it is zero, so that the powers stay small. *)
Definition float_of_decimal (m count x : Z) : float :=
  if (m =? 0)%Z then 0%float
  else if (310 <? x)%Z then infinity
  else if (count + x <? -330)%Z then 0%float
  else if (0 <=? x)%Z then float_of_Z (m * 10 ^ x)
  else float_of_ratio m (10 ^ (- x)).

Definition signed (neg : bool) (f : float) : float :=
  if neg then (- f)%float else f.

(** *** JSON *)

Definition is_ws (c : ascii) : bool :=
  let n := nat_of_ascii c in
  (n =? 32)%nat || (n =? 9)%nat || (n =? 10)%nat || (n =? 13)%nat.

Fixpoint skip_ws (s : string) : string :=
  match s with
  | String c s' => if is_ws c then skip_ws s' else s
  | EmptyString => s
  end.

(** A JSON number: a minus sign, [0] or digits that do not start with 0,
    then a fraction and an exponent if complete ones are there.  It is an
    int without them and a float with one of them. *)
Definition number_literal (s : string) : option (value * string) :=
  let '(neg, s1) := sign false s in
  match digitpart false s1 with
  | Some (n, count, r) =>
      let zero_first :=
        match s1 with
        | String c _ => Ascii.eqb c "0"%char
        | EmptyString => false
        end in
      let '(n, count, r) :=
        if zero_first then (0%Z, 1%Z, substring 1 (String.length s1 - 1) s1)
        else (n, count, r) in
      let '(frac, r1) :=
        match r with
        | String c r' =>
            if Ascii.eqb c "."%char
            then match digitpart false r' with
                 | Some (f, fcount, r'') => (Some (f, fcount), r'')
                 | None => (None, r)
                 end
            else (None, r)
        | EmptyString => (None, r)
        end in
      let '(expo, r2) :=
        match exponent false r1 with
        | Some (x, r') => (Some x, r')
        | None => (None, r1)
        end in
      match frac, expo with
      | None, None => Some (VInt (if neg then (- n)%Z else n), r2)
      | _, _ =>
          let '(f, fcount) := default (0%Z, 0%Z) frac in
          let x := default 0%Z expo in
          Some (VFloat (signed neg
                          (float_of_decimal (n * 10 ^ fcount + f)
                             (count + fcount) (x - fcount))), r2)
      end
  | None => None
  end.

Definition hex_digit (c : ascii) : option Z :=
  let n := Z.of_nat (nat_of_ascii c) in
  if ((48 <=? n)%Z && (n <=? 57)%Z)%bool then Some (n - 48)%Z
  else if ((65 <=? n)%Z && (n <=? 70)%Z)%bool then Some (n - 55)%Z
  else if ((97 <=? n)%Z && (n <=? 102)%Z)%bool then Some (n - 87)%Z
  else None.

(** The character of an escape, the backslash already read, and what
    follows the escape. *)
Definition escape (s : string) : option (ascii * string) :=
  match s with
  | String c r =>
      if (Ascii.eqb c quote || Ascii.eqb c "\"%char
          || Ascii.eqb c "/"%char)%bool
      then Some (c, r)
      else if Ascii.eqb c "b"%char then Some (ascii_of_nat 8, r)
      else if Ascii.eqb c "f"%char then Some (ascii_of_nat 12, r)
      else if Ascii.eqb c "n"%char then Some (ascii_of_nat 10, r)
      else if Ascii.eqb c "r"%char then Some (ascii_of_nat 13, r)
      else if Ascii.eqb c "t"%char then Some (ascii_of_nat 9, r)
      else if Ascii.eqb c "u"%char
      then match r with
           | String h1 (String h2 (String h3 (String h4 r'))) =>
               match hex_digit h1, hex_digit h2, hex_digit h3, hex_digit h4
               with
               | Some 0%Z, Some 0%Z, Some a, Some b =>
                   Some (ascii_of_nat (Z.to_nat (16 * a + b)), r')
               | _, _, _, _ => None
               end
           | _ => None
           end
      else None
  | EmptyString => None
  end.

(** The characters of a string up to its closing quote; one unit of
    [fuel] for each character or escape is enough. *)
Fixpoint chars (fuel : nat) (s : string) : option (string * string) :=
  match fuel with
  | O => None
  | S fuel' =>
      match s with
      | EmptyString => None
      | String c s' =>
          if Ascii.eqb c quote then Some (EmptyString, s')
          else if (nat_of_ascii c <? 32)%nat then None
          else if Ascii.eqb c "\"%char
          then match escape s' with
               | Some (c', r) =>
                   match chars fuel' r with
                   | Some (t, r') => Some (String c' t, r')
                   | None => None
                   end
               | None => None
               end
          else match chars fuel' s' with
               | Some (t, r) => Some (String c t, r)
               | None => None
               end
      end
  end.

Definition keyword (k : string) (v : value) (s : string)
  : option (value * string) :=
  if String.prefix k s
  then Some (v, substring (String.length k)
                  (String.length s - String.length k) s)
  else None.

(** The literals that are written as words. *)
Definition word (s : string) : option (value * string) :=
  match keyword "null" VNone s with
  | Some p => Some p
  | None =>
  match keyword "true" (VBool true) s with
  | Some p => Some p
  | None =>
  match keyword "false" (VBool false) s with
  | Some p => Some p
  | None =>
  match keyword "NaN" (VFloat nan) s with
  | Some p => Some p
  | None =>
  match keyword "Infinity" (VFloat infinity) s with
  | Some p => Some p
  | None => keyword "-Infinity" (VFloat neg_infinity) s
  end end end end end.

(** The dict of a list of members: a later duplicate of a key wins. *)
Definition dict_of (l : list (string * value)) : gmap string value :=
  fold_left (fun m kv => <[kv.1 := kv.2]> m) l ∅.

Fixpoint element (fuel : nat) (s : string) : option (value * string) :=
  match fuel with
  | O => None
  | S fuel' =>
      match skip_ws s with
      | String "["%char r =>
          match skip_ws r with
          | String "]"%char r' => Some (VList [], r')
          | _ => match elements fuel' r with
                 | Some (l, r') => Some (VList l, r')
                 | None => None
                 end
          end
      | String "{"%char r =>
          match skip_ws r with
          | String "}"%char r' => Some (VDict ∅, r')
          | _ => match members fuel' r with
                 | Some (l, r') => Some (VDict (dict_of l), r')
                 | None => None
                 end
          end
      | String c r as s' =>
          if Ascii.eqb c quote
          then match chars (S (String.length r)) r with
               | Some (t, r') => Some (VStr t, r')
               | None => None
               end
          else match word s' with
               | Some p => Some p
               | None => number_literal s'
               end
      | EmptyString => None
      end
  end
with elements (fuel : nat) (s : string) : option (list value * string) :=
  match fuel with
  | O => None
  | S fuel' =>
      match element fuel' s with
      | Some (v, r) =>
          match skip_ws r with
          | String ","%char r' =>
              match elements fuel' r' with
              | Some (l, r'') => Some (v :: l, r'')
              | None => None
              end
          | String "]"%char r' => Some ([v], r')
          | _ => None
          end
      | None => None
      end
  end
with members (fuel : nat) (s : string)
  : option (list (string * value) * string) :=
  match fuel with
  | O => None
  | S fuel' =>
      match skip_ws s with
      | String c r =>
          if Ascii.eqb c quote
          then match chars (S (String.length r)) r with
               | Some (k, r1) =>
                   match skip_ws r1 with
                   | String ":"%char r2 =>
                       match element fuel' r2 with
                       | Some (v, r3) =>
                           match skip_ws r3 with
                           | String ","%char r4 =>
                               match members fuel' r4 with
                               | Some (l, r5) => Some ((k, v) :: l, r5)
                               | None => None
                               end
                           | String "}"%char r4 => Some ([(k, v)], r4)
                           | _ => None
                           end
                       | None => None
                       end
                   | _ => None
                   end
               | None => None
               end
          else None
      | EmptyString => None
      end
  end.

(** The whole text must be one value. *)
Definition json_loads (payload : string) : result value :=
  match element (S (String.length payload)) payload with
  | Some (v, r) =>
      match skip_ws r with
      | EmptyString => Ok v
      | _ => Raise JSONDecodeError
      end
  | None => Raise JSONDecodeError
  end.

(** *** int and float *)

(** The white space that [int] and [float] strip. *)
Definition is_space (c : ascii) : bool :=
  let n := nat_of_ascii c in
  ((9 <=? n)%nat && (n <=? 13)%nat) || (n =? 32)%nat || (n =? 133)%nat
  || (n =? 160)%nat.

Fixpoint skip_space (s : string) : string :=
  match s with
  | String c s' => if is_space c then skip_space s' else s
  | EmptyString => s
  end.

Definition at_end (s : string) : bool :=
  match skip_space s with
  | EmptyString => true
  | _ => false
  end.

(** The text of an int: a sign and digits. *)
Definition int_literal (s : string) : option Z :=
  let '(neg, s1) := sign true (skip_space s) in
  match digitpart true s1 with
  | Some (n, _, r) =>
      if at_end r then Some (if neg then (- n)%Z else n) else None
  | None => None
  end.

Definition lower (c : ascii) : ascii :=
  let n := nat_of_ascii c in
  if ((65 <=? n)%nat && (n <=? 90)%nat)%bool then ascii_of_nat (n + 32)
  else c.

Fixpoint lowercase (s : string) : string :=
  match s with
  | String c s' => String (lower c) (lowercase s')
  | EmptyString => EmptyString
  end.

(** [inf], [infinity] or [nan] in any case, and what follows. *)
Definition special (s : string) : option (float * string) :=
  let l := lowercase s in
  let rest n := substring n (String.length s - n) s in
  if String.prefix "infinity" l then Some (infinity, rest 8%nat)
  else if String.prefix "inf" l then Some (infinity, rest 3%nat)
  else if String.prefix "nan" l then Some (nan, rest 3%nat)
  else None.

(** The digits of a float, with or without a point: the number without its
    point, how many digits it has, how many of them follow the point. *)
Definition mantissa (s : string) : option (Z * Z * Z * string) :=
  match digitpart true s with
  | Some (n, count, r) =>
      match r with
      | String c r' =>
          if Ascii.eqb c "."%char
          then match digitpart true r' with
               | Some (f, fcount, r'') =>
                   Some (n * 10 ^ fcount + f, count + fcount, fcount, r'')%Z
               | None => Some (n, count, 0%Z, r')
               end
          else Some (n, count, 0%Z, r)
      | EmptyString => Some (n, count, 0%Z, r)
      end
  | None =>
      match s with
      | String c r' =>
          if Ascii.eqb c "."%char
          then match digitpart true r' with
               | Some (f, fcount, r'') => Some (f, fcount, fcount, r'')
               | None => None
               end
          else None
      | EmptyString => None
      end
  end.

(** The text of a float. *)
Definition float_literal (s : string) : option float :=
  let '(neg, s1) := sign true (skip_space s) in
  match special s1 with
  | Some (f, r) => if at_end r then Some (signed neg f) else None
  | None =>
      match mantissa s1 with
      | Some (m, count, fcount, r) =>
          let '(x, r1) :=
            match r with
            | String c _ =>
                if (Ascii.eqb c "e"%char || Ascii.eqb c "E"%char)%bool
                then match exponent true r with
                     | Some (x, r') => (Some x, r')
                     | None => (None, r)
                     end
                else (Some 0%Z, r)
            | EmptyString => (Some 0%Z, r)
            end in
          match x with
          | Some x =>
              if at_end r1
              then Some (signed neg (float_of_decimal m count (x - fcount)))
              else None
          | None => None
          end
      | None => None
      end
  end.

(** [int(v)]: an int is itself, a bool is 0 or 1, a float is truncated
    towards zero, a str is parsed, anything else is a type error. *)
Definition py_int (v : value) : result Z :=
  match v with
  | VInt z => Ok z
  | VBool b => Ok (if b then 1 else 0)%Z
  | VFloat f =>
      match Prim2SF f with
      | S754_zero _ => Ok 0%Z
      | S754_infinity _ => Raise OverflowError
      | S754_nan => Raise ValueError
      | S754_finite sign m e =>
          let a := if (0 <=? e)%Z then (Z.pos m * 2 ^ e)%Z
                   else (Z.pos m / 2 ^ (- e))%Z in
          Ok (if sign then (- a)%Z else a)
      end
  | VStr s =>
      match int_literal s with
      | Some z => Ok z
      | None => Raise ValueError
      end
  | _ => Raise TypeError
  end.

(** [float(v)]: a float is itself, an int is rounded to the nearest float
    and must be in range, a bool is 0.0 or 1.0, a str is parsed, anything
    else is a type error. *)
Definition py_float (v : value) : result float :=
  match v with
  | VFloat f => Ok f
  | VInt z =>
      let f := float_of_Z z in
      if PrimFloat.is_infinity f then Raise OverflowError else Ok f
  | VBool b => Ok (if b then 1 else 0)%float
  | VStr s =>
      match float_literal s with
      | Some f => Ok f
      | None => Raise ValueError
      end
  | _ => Raise TypeError
  end.

End Sample.

Module Cool := DysonPureCoolV2State.
Module Env := DysonEnvironmentalSensorV2State.

(** * The specification's vocabulary

    The definitions of this part are not translations of the module: they
    give the words of the specification a meaning, and the lemmas
    [init_refines_keys] and [init_refines_schema] tie the two tables below
    to the constructors. *)

(** A scalar of the protocol: a string or a number. *)
Definition scalar (v : value) : bool :=
  match v with
  | VStr _ | VInt _ | VFloat _ => true
  | _ => false
  end.

(** [value is not None] *)
Definition non_null (v : value) : bool :=
  match v with
  | VNone => false
  | _ => true
  end.

(** [traverse f l] runs [f] on the elements of [l] from left to right and
    stops at the first exception. *)
Fixpoint traverse {A B : Type} (f : A -> result B) (l : list A)
  : result (list B) :=
  match l with
  | [] => Ok []
  | a :: l' =>
      let! b := f a in
      let! bs := traverse f l' in
      Ok (b :: bs)
  end.

(** The keys of [product-state], in the order in which the operational
    constructor reads them. *)
Definition keys : list string :=
  ["fpwr"; "fdir"; "auto"; "oscs"; "oson"; "nmod"; "rhtm"; "fnst"; "nmdv";
   "fnsp"; "cflr"; "hflr"; "sltm"; "osal"; "osau"].

Definition cool_of_values (state : value) (vs : list value) : result Cool.t :=
  match vs with
  | [a; b; c; d; e; f; g; h; i; j; k; l; m; n; o] =>
      Ok (Cool.Build state a b c d e f g h i j k l m n o)
  | _ => Raise TypeError
  end.

(** The table of section 4.4 of the specification: the key of each field,
    its sentinel if it has one, and the conversion of its other values. *)
Inductive conversion : Type :=
  | ToInt
  | ToTenths.

Record rule : Type := Rule {
  key : string;
  sentinel : option string;
  conv : conversion
}.

Definition schema : list rule :=
  [Rule "tact" (Some "OFF") ToTenths;
   Rule "hact" (Some "OFF") ToInt;
   Rule "pm25" None ToInt;
   Rule "pm10" None ToInt;
   Rule "va10" (Some "INIT") ToInt;
   Rule "noxl" None ToInt;
   Rule "p25r" None ToInt;
   Rule "p10r" None ToInt;
   Rule "sltm" (Some "OFF") ToInt].

Definition is_sentinel (r : rule) (v : value) : bool :=
  match sentinel r with
  | Some s => eq_str v s
  | None => false
  end.

Definition number_of_value (v : value) : option number :=
  match v with
  | VInt z => Some (NInt z)
  | VFloat f => Some (NFloat f)
  | _ => None
  end.

Definition env_of_values (vs : list value) : result Env.t :=
  match vs with
  | [t; VInt h; VInt a; VInt b; VInt c; VInt d; VInt e; VInt f; VInt g] =>
      match number_of_value t with
      | Some n => Ok (Env.Build n h a b c d e f g)
      | None => Raise TypeError
      end
  | _ => Raise TypeError
  end.

Section Tables.

Variable json_loads : string -> result value.
Variable py_int : value -> result Z.
Variable py_float : value -> result float.
Variable field_text : value -> string.

(** The operational constructor written as a traversal of its keys. *)
Definition init_by_keys (payload : string) : result Cool.t :=
  let! json_message := json_loads payload in
  let! state := subscript json_message (VStr "product-state") in
  let! vs := traverse (Cool._get_field_value state) keys in
  cool_of_values state vs.

(** A rule read as a program: the sentinel gives the int 0, any other
    value is converted. *)
Definition normalise (r : rule) (v : value) : result value :=
  if is_sentinel r v then Ok (VInt 0)
  else match conv r with
       | ToInt => let! n := py_int v in Ok (VInt n)
       | ToTenths => let! f := py_float v in Ok (VFloat (f / 10)%float)
       end.

Definition read (data : value) (r : rule) : result value :=
  let! v := Env.__get_field_value data (key r) in
  normalise r v.

(** The environmental constructor written as a traversal of the table. *)
Definition init_by_schema (payload : string) : result Env.t :=
  let! json_message := json_loads payload in
  let! data := subscript json_message (VStr "data") in
  let! vs := traverse (read data) schema in
  env_of_values vs.

(** [numeric r v]: the conversion of the rule accepts [v]. *)
Definition numeric (r : rule) (v : value) : Prop :=
  match conv r with
  | ToInt => exists n, py_int v = Ok n
  | ToTenths => exists f, py_float v = Ok f
  end.

(** [conversion_raises r v e]: the conversion of the rule raises [e] on
    [v]. *)
Definition conversion_raises (r : rule) (v : value) (e : exn) : Prop :=
  match conv r with
  | ToInt => py_int v = Raise e
  | ToTenths => py_float v = Raise e
  end.

(** The field of [r] is present in [data] and extracts. *)
Definition extracts (data : value) (r : rule) : Prop :=
  exists v, Env.__get_field_value data (key r) = Ok v.

(** The field of [r] extracts to its sentinel or to a value that its
    conversion accepts. *)
Definition valid_field (data : value) (r : rule) : Prop :=
  exists v, Env.__get_field_value data (key r) = Ok v /\
            (is_sentinel r v = true \/ numeric r v).

(** A valid environmental payload: it decodes, it has [data], and every
    field of the table is valid in [data]. *)
Definition valid_environmental (payload : string) (data : value) : Prop :=
  exists json_message,
    json_loads payload = Ok json_message /\
    subscript json_message (VStr "data") = Ok data /\
    Forall (valid_field data) schema.

(** One entry of a representation. *)
Definition pair_text (nv : string * value) : string :=
  nv.1 ++ "=" ++ field_text nv.2.

End Tables.

(** ** Payloads of the closed examples *)

Definition environmental_payload : string :=
  Sample.json_text
    "{'msg': 'ENVIRONMENTAL-CURRENT-SENSOR-DATA', 'time': 'T',
      'data': {'tact': '2960', 'hact': '0045', 'pm25': '0005',
               'pm10': '0004', 'va10': 'INIT', 'noxl': ['0003', '0004'],
               'p25r': '0005', 'p10r': '0006', 'sltm': 'OFF'}}".

Definition environmental_data : value :=
  VDict (<["tact" := VStr "2960"]> (<["hact" := VStr "0045"]>
        (<["pm25" := VStr "0005"]> (<["pm10" := VStr "0004"]>
        (<["va10" := VStr "INIT"]>
        (<["noxl" := VList [VStr "0003"; VStr "0004"]]>
        (<["p25r" := VStr "0005"]> (<["p10r" := VStr "0006"]>
        (<["sltm" := VStr "OFF"]> ∅))))))))).

Definition unparsable_payload : string :=
  Sample.json_text
    "{'msg': 'ENVIRONMENTAL-CURRENT-SENSOR-DATA',
      'data': {'tact': 'OFF', 'hact': '0045', 'pm25': 'none',
               'pm10': '0004', 'va10': 'INIT', 'noxl': '0004',
               'p25r': '0005', 'p10r': '0006', 'sltm': 'OFF'}}".

Definition unparsable_data : value :=
  VDict (<["tact" := VStr "OFF"]> (<["hact" := VStr "0045"]>
        (<["pm25" := VStr "none"]> (<["pm10" := VStr "0004"]>
        (<["va10" := VStr "INIT"]> (<["noxl" := VStr "0004"]>
        (<["p25r" := VStr "0005"]> (<["p10r" := VStr "0006"]>
        (<["sltm" := VStr "OFF"]> ∅))))))))).

Definition operational_payload : string :=
  Sample.json_text
    "{'msg': 'CURRENT-STATE', 'time': 'T',
      'product-state': {'fpwr': ['OFF', 'ON'], 'fdir': 'ON', 'auto': 'OFF',
                        'oscs': 'ON', 'oson': 'ON', 'nmod': 'OFF',
                        'rhtm': 'ON', 'fnst': 'FAN', 'nmdv': '0004',
                        'fnsp': '0005', 'cflr': '0100', 'hflr': '0100',
                        'sltm': 'OFF', 'osal': '0063', 'osau': '0243'}}".

Definition operational_product_state : gmap string value :=
  <["fpwr" := VList [VStr "OFF"; VStr "ON"]]> (<["fdir" := VStr "ON"]>
  (<["auto" := VStr "OFF"]> (<["oscs" := VStr "ON"]>
  (<["oson" := VStr "ON"]> (<["nmod" := VStr "OFF"]>
  (<["rhtm" := VStr "ON"]> (<["fnst" := VStr "FAN"]>
  (<["nmdv" := VStr "0004"]> (<["fnsp" := VStr "0005"]>
  (<["cflr" := VStr "0100"]> (<["hflr" := VStr "0100"]>
  (<["sltm" := VStr "OFF"]> (<["osal" := VStr "0063"]>
  (<["osau" := VStr "0243"]> ∅)))))))))))))).

Definition operational_message : gmap string value :=
  <["msg" := VStr "CURRENT-STATE"]> (<["time" := VStr "T"]>
  (<["product-state" := VDict operational_product_state]> ∅)).

Definition operational_state : Cool.t :=
  Cool.Build (VDict operational_product_state)
    (VStr "ON") (VStr "ON") (VStr "OFF") (VStr "ON") (VStr "ON") (VStr "OFF")
    (VStr "ON") (VStr "FAN") (VStr "0004") (VStr "0005") (VStr "0100")
    (VStr "0100") (VStr "OFF") (VStr "0063") (VStr "0243").

Definition operational_payload_more : string :=
  Sample.json_text
    "{'msg': 'STATE-CHANGE',
      'product-state': {'fpwr': ['OFF', 'ON'], 'fdir': 'ON', 'auto': 'OFF',
                        'oscs': 'ON', 'oson': 'ON', 'nmod': 'OFF',
                        'rhtm': 'ON', 'fnst': 'FAN', 'nmdv': '0004',
                        'fnsp': '0005', 'cflr': '0100', 'hflr': '0100',
                        'sltm': 'OFF', 'osal': '0063', 'osau': '0243',
                        'ercd': 'NONE', 'wacd': 'NONE'},
      'scheduler': {'srsc': '8773', 'dstv': '0000'}}".

Definition environmental_payload_more : string :=
  Sample.json_text
    "{'msg': 'CURRENT-STATE',
      'data': {'tact': '2960', 'hact': '0045', 'pm25': '0005',
               'pm10': '0004', 'va10': 'INIT', 'noxl': ['0003', '0004'],
               'p25r': '0005', 'p10r': '0006', 'sltm': 'OFF',
               'hcho': 'NONE'}}".

Definition operational_message_more : gmap string value :=
  <["msg" := VStr "STATE-CHANGE"]>
    (<["product-state" :=
         VDict (<["ercd" := VStr "NONE"]> (<["wacd" := VStr "NONE"]>
                  operational_product_state))]>
    (<["scheduler" :=
         VDict (<["srsc" := VStr "8773"]> (<["dstv" := VStr "0000"]> ∅))]>
       ∅)).

Definition environmental_fields : gmap string value :=
  <["tact" := VStr "2960"]> (<["hact" := VStr "0045"]>
  (<["pm25" := VStr "0005"]> (<["pm10" := VStr "0004"]>
  (<["va10" := VStr "INIT"]>
  (<["noxl" := VList [VStr "0003"; VStr "0004"]]>
  (<["p25r" := VStr "0005"]> (<["p10r" := VStr "0006"]>
  (<["sltm" := VStr "OFF"]> ∅)))))))).

Definition environmental_message : gmap string value :=
  <["msg" := VStr "ENVIRONMENTAL-CURRENT-SENSOR-DATA"]>
    (<["time" := VStr "T"]> (<["data" := VDict environmental_fields]> ∅)).

Definition environmental_message_more : gmap string value :=
  <["msg" := VStr "CURRENT-STATE"]>
    (<["data" := VDict (<["hcho" := VStr "NONE"]> environmental_fields)]> ∅).

(** * Properties *)

(** ** The result type *)

Lemma bind_Ok {A B : Type} (c : result A) (k : A -> result B) (b : B) :
  bind c k = Ok b <-> exists a, c = Ok a /\ k a = Ok b.
Proof.
  split.
  - destruct c as [a|e]; simpl; [eauto | discriminate].
  - intros (a & -> & Hk). exact Hk.
Qed.

(** Every element before the first failing one succeeds: the traversal
    raises what the failing element raises. *)
Lemma traverse_first_raise {A B : Type} (f : A -> result B)
    (pre post : list A) (a : A) (e : exn) :
  Forall (fun x => exists b, f x = Ok b) pre ->
  f a = Raise e ->
  traverse f (pre ++ a :: post)%list = Raise e.
Proof.
  intros Hpre Ha. induction Hpre as [|x pre [b Hb] _ IH]; simpl.
  - rewrite Ha. reflexivity.
  - rewrite Hb. simpl. rewrite IH. reflexivity.
Qed.

(** One failing element is enough for the traversal to raise. *)
Lemma traverse_raises {A B : Type} (f : A -> result B) (l : list A) (a : A) :
  In a l -> raises (f a) -> raises (traverse f l).
Proof.
  intros Hin [e He]. induction l as [|x l IH]; [destruct Hin|].
  simpl. destruct (f x) as [b|e'] eqn:Hx; simpl; [|eexists; reflexivity].
  destruct Hin as [->|Hin]; [congruence|].
  destruct (IH Hin) as [e' ->]. eexists; reflexivity.
Qed.

(** When some element fails, the traversal raises what its first failing
    element raises. *)
Lemma traverse_Exists_raise {A B : Type} (f : A -> result B) (l : list A) :
  Exists (fun a => raises (f a)) l ->
  exists a e, In a l /\ f a = Raise e /\ traverse f l = Raise e.
Proof.
  induction l as [|x l IH]; intros H; [inversion H|].
  simpl. destruct (f x) as [b|e] eqn:Hx; simpl.
  - assert (Hl : Exists (fun a => raises (f a)) l).
    { inversion H as [? ? [e He]|]; subst; [congruence | assumption]. }
    destruct (IH Hl) as (a & e & Hin & Ha & Ht).
    exists a, e. rewrite Ht. auto.
  - exists x, e. auto.
Qed.

(** ** Python operations *)

Lemma eq_str_true (v : value) (s : string) : eq_str v s = true <-> v = VStr s.
Proof.
  destruct v; simpl; try (split; [discriminate | intros [=]]).
  rewrite String.eqb_eq. split; [intros -> | intros [= ->]]; reflexivity.
Qed.

Lemma eq_str_false (v : value) (s : string) :
  eq_str v s = false <-> v <> VStr s.
Proof.
  rewrite <- eq_str_true. destruct (eq_str v s); split; congruence.
Qed.

Lemma subscript_dict (d : gmap string value) (k : string) :
  subscript (VDict d) (VStr k) =
  match d !! k with
  | Some v => Ok v
  | None => Raise (KeyError (VStr k))
  end.
Proof. reflexivity. Qed.

Lemma list_item_1 (l : list value) :
  list_item l 1 =
  match l !! 1%nat with
  | Some x => Ok x
  | None => Raise IndexError
  end.
Proof.
  unfold list_item. cbv zeta. change (1 <? 0)%Z with false. cbv iota.
  destruct l as [|a [|b l]]; try reflexivity.
  replace (1 <? Z.of_nat (length (a :: b :: l)))%Z with true;
    [reflexivity|].
  symmetry. apply Z.ltb_lt. simpl length. lia.
Qed.

(** ** The field extractor *)

(** On a dict the helper is a case analysis on the stored value. *)
Lemma get_field_value_dict (d : gmap string value) (k : string) :
  Cool._get_field_value (VDict d) k =
  match d !! k with
  | None => Raise (KeyError (VStr k))
  | Some (VList l) =>
      match l !! 1%nat with
      | Some x => Ok x
      | None => Raise IndexError
      end
  | Some v => Ok v
  end.
Proof.
  unfold Cool._get_field_value. rewrite subscript_dict.
  destruct (d !! k) as [v|] eqn:Hk; simpl; [|reflexivity].
  destruct v; simpl; try reflexivity. apply list_item_1.
Qed.

(** The helper of the environmental class is a copy of the one above. *)
Lemma environmental_get_field_value_dict (d : gmap string value) (k : string) :
  Env.__get_field_value (VDict d) k =
  match d !! k with
  | None => Raise (KeyError (VStr k))
  | Some (VList l) =>
      match l !! 1%nat with
      | Some x => Ok x
      | None => Raise IndexError
      end
  | Some v => Ok v
  end.
Proof. exact (get_field_value_dict d k). Qed.

(** C1: for a dict and a key present in it, both copies of the field
    extractor return element 1 of a two-element list and return a string or
    a number unchanged; for a key absent from the dict both raise KeyError
    for that key. *)
Theorem get_field_value_spec (d : gmap string value) (k : string) :
  (forall a b : value, d !! k = Some (VList [a; b]) ->
     Cool._get_field_value (VDict d) k = Ok b /\
     Env.__get_field_value (VDict d) k = Ok b) /\
  (forall v : value, d !! k = Some v -> scalar v = true ->
     Cool._get_field_value (VDict d) k = Ok v /\
     Env.__get_field_value (VDict d) k = Ok v) /\
  (d !! k = None ->
     Cool._get_field_value (VDict d) k = Raise (KeyError (VStr k)) /\
     Env.__get_field_value (VDict d) k = Raise (KeyError (VStr k))).
Proof.
  rewrite environmental_get_field_value_dict, get_field_value_dict.
  split; [|split].
  - intros a b ->. split; reflexivity.
  - intros v -> Hv. destruct v; try discriminate Hv; split; reflexivity.
  - intros ->. split; reflexivity.
Qed.

Lemma get_field_value_spec_witness :
  let d : gmap string value :=
    <["fpwr" := VList [VStr "OFF"; VStr "ON"]]> (<["fdir" := VStr "ON"]> ∅) in
  Cool._get_field_value (VDict d) "fpwr" = Ok (VStr "ON") /\
  Env.__get_field_value (VDict d) "fdir" = Ok (VStr "ON") /\
  Cool._get_field_value (VDict d) "auto" = Raise (KeyError (VStr "auto")).
Proof.
  intros d.
  split; [|split].
  - apply (proj1 (get_field_value_spec d "fpwr") (VStr "OFF") (VStr "ON")).
    reflexivity.
  - apply (proj1 (proj2 (get_field_value_spec d "fdir")) (VStr "ON"));
      reflexivity.
  - apply (proj2 (proj2 (get_field_value_spec d "auto"))). reflexivity.
Defined.

(** C10: the test of the extractor is [isinstance(value, list)].  A list
    with at least two elements yields its element at index 1 whatever its
    length (the middle one of three); a value that is not a list, a string
    of several characters included, is returned as it is; a list with fewer
    than two elements raises IndexError. *)
Theorem get_field_value_list_shape (d : gmap string value) (k : string) :
  (forall l : list value, d !! k = Some (VList l) -> 2 <= length l ->
     exists x, l !! 1%nat = Some x /\
       Cool._get_field_value (VDict d) k = Ok x /\
       Env.__get_field_value (VDict d) k = Ok x) /\
  (forall a b c : value, d !! k = Some (VList [a; b; c]) ->
     Cool._get_field_value (VDict d) k = Ok b /\
     Env.__get_field_value (VDict d) k = Ok b) /\
  (forall v : value, d !! k = Some v -> isinstance_list v = false ->
     Cool._get_field_value (VDict d) k = Ok v /\
     Env.__get_field_value (VDict d) k = Ok v) /\
  (forall l : list value, d !! k = Some (VList l) -> length l <= 1 ->
     Cool._get_field_value (VDict d) k = Raise IndexError /\
     Env.__get_field_value (VDict d) k = Raise IndexError).
Proof.
  rewrite environmental_get_field_value_dict, get_field_value_dict.
  split; [|split; [|split]].
  - intros l -> Hlen. destruct l as [|a [|b l]]; simpl in Hlen; try lia.
    exists b. repeat split.
  - intros a b c ->. split; reflexivity.
  - intros v -> Hv. destruct v; try discriminate Hv; split; reflexivity.
  - intros l -> Hlen. destruct l as [|a [|b l]]; simpl in Hlen; try lia;
      split; reflexivity.
Qed.

Lemma get_field_value_list_shape_witness :
  let d : gmap string value :=
    <["a" := VList [VInt 1; VInt 2; VInt 3]]>
      (<["b" := VStr "ON"]> (<["c" := VList [VInt 1]]> ∅)) in
  Cool._get_field_value (VDict d) "a" = Ok (VInt 2) /\
  Env.__get_field_value (VDict d) "b" = Ok (VStr "ON") /\
  Env.__get_field_value (VDict d) "c" = Raise IndexError.
Proof.
  intros d.
  split; [|split].
  - apply (proj1 (proj2 (get_field_value_list_shape d "a"))
             (VInt 1) (VInt 2) (VInt 3)).
    reflexivity.
  - apply (proj1 (proj2 (proj2 (get_field_value_list_shape d "b")))
             (VStr "ON")); reflexivity.
  - apply (proj2 (proj2 (proj2 (get_field_value_list_shape d "c")))
             [VInt 1]); [reflexivity | simpl; lia].
Defined.

(** ** The message classifiers *)

Section Classifiers.

Variable json_loads : string -> result value.

Lemma is_state_message_dict (payload : string) (d : gmap string value)
    (tag : value) :
  json_loads payload = Ok (VDict d) ->
  d !! "msg" = Some tag ->
  Cool.is_state_message json_loads payload =
  Ok (eq_str tag "CURRENT-STATE" || eq_str tag "STATE-CHANGE").
Proof.
  intros Hload Htag. unfold Cool.is_state_message.
  rewrite Hload. simpl. rewrite Htag. simpl. rewrite orb_false_r. reflexivity.
Qed.

(** C4: when the payload decodes to a dict with a key [msg], the classifier
    of the operational state returns a boolean that is true exactly when the
    tag is "CURRENT-STATE" or "STATE-CHANGE"; the tag of the environmental
    messages gives false. *)
Theorem is_state_message_spec (payload : string) (d : gmap string value)
    (tag : value) :
  json_loads payload = Ok (VDict d) ->
  d !! "msg" = Some tag ->
  (exists b : bool,
     Cool.is_state_message json_loads payload = Ok b /\
     (b = true <-> tag = VStr "CURRENT-STATE" \/ tag = VStr "STATE-CHANGE")) /\
  (tag = VStr "ENVIRONMENTAL-CURRENT-SENSOR-DATA" ->
     Cool.is_state_message json_loads payload = Ok false).
Proof.
  intros Hload Htag.
  rewrite (is_state_message_dict payload d tag Hload Htag). split.
  - eexists. split; [reflexivity|].
    rewrite orb_true_iff, !eq_str_true. reflexivity.
  - intros ->. reflexivity.
Qed.

(** C5: when the payload decodes to a dict with a key [msg], the classifier
    of the environmental state returns a boolean that is true exactly when
    the tag is "ENVIRONMENTAL-CURRENT-SENSOR-DATA". *)
Theorem is_environmental_state_message_spec (payload : string)
    (d : gmap string value) (tag : value) :
  json_loads payload = Ok (VDict d) ->
  d !! "msg" = Some tag ->
  exists b : bool,
    Env.is_environmental_state_message json_loads payload = Ok b /\
    (b = true <-> tag = VStr "ENVIRONMENTAL-CURRENT-SENSOR-DATA").
Proof.
  intros Hload Htag. unfold Env.is_environmental_state_message.
  rewrite Hload. simpl. rewrite Htag. simpl.
  eexists. split; [reflexivity|].
  rewrite orb_false_r. apply eq_str_true.
Qed.

Variable py_int : value -> result Z.
Variable py_float : value -> result float.

(** C7: when decoding the payload raises the decode error, both classifiers
    and both constructors raise that decode error: none of them returns a
    boolean or an object. *)
Theorem decode_error_propagates (payload : string) :
  json_loads payload = Raise JSONDecodeError ->
  Cool.is_state_message json_loads payload = Raise JSONDecodeError /\
  Env.is_environmental_state_message json_loads payload
    = Raise JSONDecodeError /\
  Cool.__init__ json_loads payload = Raise JSONDecodeError /\
  Env.__init__ json_loads py_int py_float payload = Raise JSONDecodeError.
Proof.
  intros Hload.
  unfold Cool.is_state_message, Env.is_environmental_state_message,
    Cool.__init__, Env.__init__.
  rewrite Hload. cbn [bind]. repeat split; reflexivity.
Qed.

End Classifiers.

Lemma is_state_message_spec_witness :
  let payload := Sample.json_text "{'msg': 'STATE-CHANGE', 'time': 'T'}" in
  Cool.is_state_message Sample.json_loads payload = Ok true.
Proof.
  intros payload.
  destruct (is_state_message_spec Sample.json_loads payload
              (<["time" := VStr "T"]> (<["msg" := VStr "STATE-CHANGE"]> ∅))
              (VStr "STATE-CHANGE"))
    as [(b & Hb & Hiff) _]; [vm_compute; reflexivity | reflexivity |].
  rewrite Hb. f_equal. apply Hiff. right. reflexivity.
Defined.

Lemma is_environmental_state_message_spec_witness :
  let payload :=
    Sample.json_text "{'msg': 'ENVIRONMENTAL-CURRENT-SENSOR-DATA'}" in
  Env.is_environmental_state_message Sample.json_loads payload = Ok true.
Proof.
  intros payload.
  destruct (is_environmental_state_message_spec Sample.json_loads payload
              (<["msg" := VStr "ENVIRONMENTAL-CURRENT-SENSOR-DATA"]> ∅)
              (VStr "ENVIRONMENTAL-CURRENT-SENSOR-DATA"))
    as (b & Hb & Hiff); [vm_compute; reflexivity | reflexivity |].
  rewrite Hb. f_equal. apply Hiff. reflexivity.
Defined.

Lemma decode_error_propagates_witness :
  let payload := Sample.json_text "{'msg': 'CURRENT-STATE'" in
  Cool.is_state_message Sample.json_loads payload = Raise JSONDecodeError /\
  Env.is_environmental_state_message Sample.json_loads payload
    = Raise JSONDecodeError /\
  Cool.__init__ Sample.json_loads payload = Raise JSONDecodeError /\
  Env.__init__ Sample.json_loads Sample.py_int Sample.py_float payload
    = Raise JSONDecodeError.
Proof.
  intros payload.
  apply (decode_error_propagates Sample.json_loads Sample.py_int
           Sample.py_float payload).
  vm_compute. reflexivity.
Defined.

(** ** The constructors *)

Section Constructors.

Variable json_loads : string -> result value.
Variable py_int : value -> result Z.
Variable py_float : value -> result float.

(** *** The constructors as traversals *)

Lemma init_refines_keys (payload : string) :
  Cool.__init__ json_loads payload = init_by_keys json_loads payload.
Proof.
  unfold Cool.__init__, init_by_keys.
  destruct (json_loads payload) as [json_message|]; [simpl|reflexivity].
  destruct (subscript json_message (VStr "product-state")) as [state|];
    [simpl|reflexivity].
  generalize (Cool._get_field_value state). intros get.
  repeat
    match goal with
    | |- context [get ?k] => destruct (get k); simpl; [|reflexivity]
    end.
  reflexivity.
Qed.

Lemma init_refines_schema (payload : string) :
  Env.__init__ json_loads py_int py_float payload
    = init_by_schema json_loads py_int py_float payload.
Proof.
  unfold Env.__init__, init_by_schema.
  destruct (json_loads payload) as [json_message|]; [simpl|reflexivity].
  destruct (subscript json_message (VStr "data")) as [data|];
    [simpl|reflexivity].
  unfold read, normalise, is_sentinel. simpl.
  generalize (Env.__get_field_value data). intros get.
  repeat
    match goal with
    | |- context [get ?k] => destruct (get k); simpl; [|reflexivity]
    | |- context [if eq_str ?v ?s then _ else _] => destruct (eq_str v s); simpl
    | |- context [py_int ?v] => destruct (py_int v); simpl; [|reflexivity]
    | |- context [py_float ?v] => destruct (py_float v); simpl; [|reflexivity]
    end; reflexivity.
Qed.

(** *** The rules one at a time *)

Lemma number_of_value_of_number (t : number) :
  number_of_value (value_of_number t) = Some t.
Proof. destruct t; reflexivity. Qed.

Lemma normalise_tenths (k s : string) (v : value) (t : number) :
  normalise py_int py_float (Rule k (Some s) ToTenths) v
    = Ok (value_of_number t) ->
  (v = VStr s -> t = NInt 0) /\
  (v <> VStr s -> exists f, py_float v = Ok f /\ t = NFloat (f / 10)%float).
Proof.
  unfold normalise, is_sentinel. simpl.
  destruct (eq_str v s) eqn:Hs.
  - intros Ht. apply eq_str_true in Hs.
    destruct t; simpl in Ht; try discriminate Ht.
    injection Ht as <-. split; [reflexivity | congruence].
  - apply eq_str_false in Hs. intros H.
    apply bind_Ok in H as (f & Hf & Ht).
    destruct t; simpl in Ht; try discriminate Ht.
    injection Ht as <-. split; [congruence | eauto].
Qed.

Lemma normalise_sentinel_int (k s : string) (v : value) (n : Z) :
  normalise py_int py_float (Rule k (Some s) ToInt) v = Ok (VInt n) ->
  (v = VStr s -> n = 0%Z) /\ (v <> VStr s -> py_int v = Ok n).
Proof.
  unfold normalise, is_sentinel. simpl.
  destruct (eq_str v s) eqn:Hs.
  - intros [= <-]. apply eq_str_true in Hs. split; [reflexivity | congruence].
  - apply eq_str_false in Hs. intros H.
    apply bind_Ok in H as (m & Hm & [= <-]).
    split; [congruence | intros _; exact Hm].
Qed.

Lemma normalise_int (k : string) (v : value) (n : Z) :
  normalise py_int py_float (Rule k None ToInt) v = Ok (VInt n) ->
  py_int v = Ok n.
Proof.
  unfold normalise, is_sentinel. simpl. intros H.
  apply bind_Ok in H as (m & Hm & [= <-]). exact Hm.
Qed.

(** A valid field is read without an exception, to an int when its rule
    converts to int and to a number in any case. *)
Lemma valid_field_read (data : value) (r : rule) :
  valid_field py_int py_float data r ->
  exists v w, Env.__get_field_value data (key r) = Ok v /\
              normalise py_int py_float r v = Ok w /\
              (conv r = ToInt -> exists n, w = VInt n) /\
              (exists t, w = value_of_number t).
Proof.
  intros (v & Hget & Hv). exists v. unfold normalise.
  destruct (is_sentinel r v) eqn:Hs.
  - exists (VInt 0). repeat split; eauto. exists (NInt 0). reflexivity.
  - destruct Hv as [Hv|Hv]; [congruence|]. unfold numeric in Hv.
    destruct (conv r); destruct Hv as [x Hx]; rewrite Hx; simpl.
    + exists (VInt x). repeat split; eauto. exists (NInt x). reflexivity.
    + exists (VFloat (x / 10)%float).
      repeat split; [exact Hget | discriminate |].
      exists (NFloat (x / 10)%float). reflexivity.
Qed.

(** When a field extracts and reading it raises, its value is not the
    sentinel and the exception is the one of the conversion. *)
Lemma read_raise_conversion (data : value) (r : rule) (v : value) (e : exn) :
  Env.__get_field_value data (key r) = Ok v ->
  read py_int py_float data r = Raise e ->
  is_sentinel r v = false /\ conversion_raises py_int py_float r v e.
Proof.
  intros Hget. unfold read, normalise, conversion_raises. rewrite Hget. simpl.
  destruct (is_sentinel r v); [discriminate|].
  destruct (conv r).
  - destruct (py_int v); simpl; [discriminate | intros [= ->]; auto].
  - destruct (py_float v); simpl; [discriminate | intros [= ->]; auto].
Qed.

(** *** Valid payloads *)

Lemma valid_init (payload : string) (data : value) :
  valid_environmental json_loads py_int py_float payload data ->
  exists tact hact pm25 pm10 va10 noxl p25r p10r sltm t h a b c d e f g,
    (Env.__get_field_value data "tact" = Ok tact /\
     Env.__get_field_value data "hact" = Ok hact /\
     Env.__get_field_value data "pm25" = Ok pm25 /\
     Env.__get_field_value data "pm10" = Ok pm10 /\
     Env.__get_field_value data "va10" = Ok va10 /\
     Env.__get_field_value data "noxl" = Ok noxl /\
     Env.__get_field_value data "p25r" = Ok p25r /\
     Env.__get_field_value data "p10r" = Ok p10r /\
     Env.__get_field_value data "sltm" = Ok sltm) /\
    (let norm := normalise py_int py_float in
     norm (Rule "tact" (Some "OFF") ToTenths) tact
       = Ok (value_of_number t) /\
     norm (Rule "hact" (Some "OFF") ToInt) hact = Ok (VInt h) /\
     norm (Rule "pm25" None ToInt) pm25 = Ok (VInt a) /\
     norm (Rule "pm10" None ToInt) pm10 = Ok (VInt b) /\
     norm (Rule "va10" (Some "INIT") ToInt) va10 = Ok (VInt c) /\
     norm (Rule "noxl" None ToInt) noxl = Ok (VInt d) /\
     norm (Rule "p25r" None ToInt) p25r = Ok (VInt e) /\
     norm (Rule "p10r" None ToInt) p10r = Ok (VInt f) /\
     norm (Rule "sltm" (Some "OFF") ToInt) sltm = Ok (VInt g)) /\
    Env.__init__ json_loads py_int py_float payload
      = Ok (Env.Build t h a b c d e f g).
Proof.
  intros (json_message & Hload & Hdata & Hfields).
  unfold schema in Hfields.
  repeat
    match goal with
    | H : Forall _ (_ :: _) |- _ =>
        let Hr := fresh "Hr" in
        apply Forall_cons_iff in H as [Hr H];
        let Ht := fresh "Ht" in
        apply valid_field_read in Hr as (? & ? & ? & ? & Hr & Ht);
        simpl in Hr
    end.
  repeat
    match goal with
    | H : ToInt = ToInt -> _, H' : exists _, _ = value_of_number _ |- _ =>
        destruct (H eq_refl) as [? ->]; clear H H'
    | H : ToTenths = ToInt -> _, H' : exists _, _ = value_of_number _ |- _ =>
        destruct H' as [? ->]; clear H
    end.
  simpl key in *.
  do 18 eexists. split; [repeat split; eassumption|].
  split; [repeat split; eassumption|].
  rewrite init_refines_schema. unfold init_by_schema.
  rewrite Hload. simpl. rewrite Hdata. simpl. unfold read. simpl key.
  repeat
    match goal with
    | H : Env.__get_field_value data ?k = Ok _
      |- context [Env.__get_field_value data ?k] => rewrite H; simpl bind
    | H : normalise py_int py_float ?r ?v = Ok _
      |- context [normalise py_int py_float ?r ?v] => rewrite H; simpl bind
    end.
  simpl. rewrite number_of_value_of_number. reflexivity.
Qed.

(** C2: for a valid environmental payload the constructor returns a state
    whose temperature is the int 0 when the extracted [tact] is "OFF", and
    otherwise the float of [tact] divided by 10. *)
Theorem temperature_normalised (payload : string) (data : value) :
  valid_environmental json_loads py_int py_float payload data ->
  exists st tact,
    Env.__init__ json_loads py_int py_float payload = Ok st /\
    Env.__get_field_value data "tact" = Ok tact /\
    (tact = VStr "OFF" -> Env.temperature st = NInt 0) /\
    (tact <> VStr "OFF" ->
       exists f, py_float tact = Ok f /\
                 Env.temperature st = NFloat (f / 10)%float).
Proof.
  intros Hvalid.
  destruct (valid_init payload data Hvalid)
    as (tact & hact & pm25 & pm10 & va10 & noxl & p25r & p10r & sltm
        & t & h & a & b & c & d & e & f & g & Hget & Hnorm & Hinit).
  exists (Env.Build t h a b c d e f g), tact.
  split; [exact Hinit|]. split; [apply Hget|].
  apply (normalise_tenths "tact" "OFF"). apply Hnorm.
Qed.

(** C3: for a valid environmental payload the constructor returns a state
    in which humidity and sleep_timer are 0 when the extracted [hact] and
    [sltm] are "OFF" and their [int] otherwise, volatile_organic_compounds
    is 0 when the extracted [va10] is "INIT" and its [int] otherwise, and
    the five other fields are the [int] of the extracted [pm25], [pm10],
    [noxl], [p25r] and [p10r]. *)
Theorem integer_fields_normalised (payload : string) (data : value) :
  valid_environmental json_loads py_int py_float payload data ->
  exists st hact pm25 pm10 va10 noxl p25r p10r sltm,
    Env.__init__ json_loads py_int py_float payload = Ok st /\
    (Env.__get_field_value data "hact" = Ok hact /\
     Env.__get_field_value data "pm25" = Ok pm25 /\
     Env.__get_field_value data "pm10" = Ok pm10 /\
     Env.__get_field_value data "va10" = Ok va10 /\
     Env.__get_field_value data "noxl" = Ok noxl /\
     Env.__get_field_value data "p25r" = Ok p25r /\
     Env.__get_field_value data "p10r" = Ok p10r /\
     Env.__get_field_value data "sltm" = Ok sltm) /\
    ((hact = VStr "OFF" -> Env.humidity st = 0%Z) /\
     (hact <> VStr "OFF" -> py_int hact = Ok (Env.humidity st))) /\
    ((sltm = VStr "OFF" -> Env.sleep_timer st = 0%Z) /\
     (sltm <> VStr "OFF" -> py_int sltm = Ok (Env.sleep_timer st))) /\
    ((va10 = VStr "INIT" -> Env.volatile_organic_compounds st = 0%Z) /\
     (va10 <> VStr "INIT" ->
        py_int va10 = Ok (Env.volatile_organic_compounds st))) /\
    py_int pm25 = Ok (Env.particulate_matter_25 st) /\
    py_int pm10 = Ok (Env.particulate_matter_10 st) /\
    py_int noxl = Ok (Env.nitrogen_dioxide st) /\
    py_int p25r = Ok (Env.p25r st) /\
    py_int p10r = Ok (Env.p10r st).
Proof.
  intros Hvalid.
  destruct (valid_init payload data Hvalid)
    as (tact & hact & pm25 & pm10 & va10 & noxl & p25r & p10r & sltm
        & t & h & a & b & c & d & e & f & g & Hget & Hnorm & Hinit).
  destruct Hnorm as (_ & Hh & Ha & Hb & Hc & Hd & He & Hf & Hg).
  exists (Env.Build t h a b c d e f g),
    hact, pm25, pm10, va10, noxl, p25r, p10r, sltm.
  split; [exact Hinit|]. split; [apply Hget|].
  split; [exact (normalise_sentinel_int _ _ _ _ Hh)|].
  split; [exact (normalise_sentinel_int _ _ _ _ Hg)|].
  split; [exact (normalise_sentinel_int _ _ _ _ Hc)|].
  repeat split; eapply normalise_int; eassumption.
Qed.

(** *** Values that do not convert *)

(** C8: for an environmental payload (it decodes, it has [data], and each
    of the nine fields extracts) in which some field's extracted value is
    neither its sentinel nor accepted by its conversion, the constructor
    raises the exception that [int] or [float] raised on the value of such
    a field: no default value takes its place. *)
Theorem conversion_error_propagates (payload : string)
    (json_message data : value) :
  json_loads payload = Ok json_message ->
  subscript json_message (VStr "data") = Ok data ->
  Forall (extracts data) schema ->
  Exists (fun r => exists v, Env.__get_field_value data (key r) = Ok v /\
                             is_sentinel r v = false /\
                             ~ numeric py_int py_float r v)
         schema ->
  exists r v e,
    In r schema /\
    Env.__get_field_value data (key r) = Ok v /\
    is_sentinel r v = false /\
    conversion_raises py_int py_float r v e /\
    Env.__init__ json_loads py_int py_float payload = Raise e.
Proof.
  intros Hload Hdata Hall Hbad.
  assert (Hraise :
            Exists (fun r => raises (read py_int py_float data r)) schema).
  { apply List.Exists_exists in Hbad as (r & Hin & v & Hget & Hs & Hnum).
    apply List.Exists_exists. exists r. split; [exact Hin|].
    unfold raises, read, normalise. rewrite Hget. simpl. rewrite Hs.
    unfold numeric in Hnum. destruct (conv r).
    - destruct (py_int v) as [n|e]; [exfalso; eauto | simpl; eauto].
    - destruct (py_float v) as [f|e]; [exfalso; eauto | simpl; eauto]. }
  destruct (traverse_Exists_raise _ _ Hraise) as (r & e & Hin & Hr & Ht).
  rewrite List.Forall_forall in Hall. destruct (Hall r Hin) as [v Hget].
  destruct (read_raise_conversion data r v e Hget Hr) as [Hs Hc].
  exists r, v, e. repeat split; try assumption.
  rewrite init_refines_schema. unfold init_by_schema.
  rewrite Hload. cbn [bind]. rewrite Hdata. cbn [bind]. rewrite Ht.
  reflexivity.
Qed.

(** *** Missing keys *)

Lemma get_field_value_missing (d : gmap string value) (k : string) :
  d !! k = None ->
  Cool._get_field_value (VDict d) k = Raise (KeyError (VStr k)).
Proof. intros H. rewrite get_field_value_dict, H. reflexivity. Qed.

Lemma read_missing (d : gmap string value) (r : rule) :
  d !! key r = None ->
  read py_int py_float (VDict d) r = Raise (KeyError (VStr (key r))).
Proof.
  intros H. unfold read.
  change (Env.__get_field_value (VDict d) (key r))
    with (Cool._get_field_value (VDict d) (key r)).
  rewrite (get_field_value_missing d (key r) H). reflexivity.
Qed.

(** C6, as the code has it: when the payload decodes to a dict, a missing
    [product-state] (respectively [data]) makes the constructor raise
    KeyError for it; when the nested dict omits a required key the
    constructor raises, so no state is returned, and what it raises is
    KeyError for that key as soon as every required key read before it
    extracts (and, for the environmental state, is valid). *)
Theorem missing_key_fails (payload : string) (m : gmap string value) :
  json_loads payload = Ok (VDict m) ->
  (m !! "product-state" = None ->
     Cool.__init__ json_loads payload
       = Raise (KeyError (VStr "product-state"))) /\
  (forall (d : gmap string value) (k : string),
     m !! "product-state" = Some (VDict d) -> In k keys -> d !! k = None ->
     raises (Cool.__init__ json_loads payload) /\
     (forall pre post : list string,
        keys = (pre ++ k :: post)%list ->
        Forall (fun k' => exists v, Cool._get_field_value (VDict d) k' = Ok v)
               pre ->
        Cool.__init__ json_loads payload = Raise (KeyError (VStr k)))) /\
  (m !! "data" = None ->
     Env.__init__ json_loads py_int py_float payload
       = Raise (KeyError (VStr "data"))) /\
  (forall (d : gmap string value) (r : rule),
     m !! "data" = Some (VDict d) -> In r schema -> d !! key r = None ->
     raises (Env.__init__ json_loads py_int py_float payload) /\
     (forall pre post : list rule,
        schema = (pre ++ r :: post)%list ->
        Forall (valid_field py_int py_float (VDict d)) pre ->
        Env.__init__ json_loads py_int py_float payload
          = Raise (KeyError (VStr (key r))))).
Proof.
  intros Hload. split; [|split; [|split]].
  - intros Hnone. unfold Cool.__init__.
    rewrite Hload. cbn [bind]. rewrite subscript_dict, Hnone. reflexivity.
  - intros d k Hstate Hin Hnone.
    rewrite init_refines_keys. unfold init_by_keys.
    rewrite Hload. cbn [bind]. rewrite subscript_dict, Hstate. cbn [bind].
    pose proof (get_field_value_missing d k Hnone) as Hk. split.
    + destruct (traverse_raises (Cool._get_field_value (VDict d)) keys k Hin)
        as [e He]; [eexists; exact Hk|].
      rewrite He. eexists. reflexivity.
    + intros pre post Hsplit Hpre. rewrite Hsplit.
      rewrite (traverse_first_raise _ pre post k _ Hpre Hk). reflexivity.
  - intros Hnone. unfold Env.__init__.
    rewrite Hload. cbn [bind]. rewrite subscript_dict, Hnone. reflexivity.
  - intros d r Hdata Hin Hnone.
    rewrite init_refines_schema. unfold init_by_schema.
    rewrite Hload. cbn [bind]. rewrite subscript_dict, Hdata. cbn [bind].
    pose proof (read_missing d r Hnone) as Hr. split.
    + destruct (traverse_raises (read py_int py_float (VDict d)) schema r Hin)
        as [e He]; [eexists; exact Hr|].
      rewrite He. eexists. reflexivity.
    + intros pre post Hsplit Hpre. rewrite Hsplit.
      assert (Hread : Forall (fun r' => exists w,
                                read py_int py_float (VDict d) r' = Ok w) pre).
      { apply List.Forall_forall. intros r' Hr'.
        rewrite List.Forall_forall in Hpre.
        destruct (valid_field_read _ _ (Hpre r' Hr'))
          as (v & w & Hget & Hw & _ & _).
        exists w. unfold read. rewrite Hget. exact Hw. }
      rewrite (traverse_first_raise _ pre post r _ Hread Hr). reflexivity.
Qed.

End Constructors.

(** ** Closed examples *)

Lemma environmental_payload_valid :
  valid_environmental Sample.json_loads Sample.py_int Sample.py_float
    environmental_payload environmental_data.
Proof.
  eexists. split; [vm_compute; reflexivity|].
  split; [vm_compute; reflexivity|].
  repeat constructor;
    (eexists; split; [vm_compute; reflexivity|];
     first [ left; reflexivity
           | right; eexists; vm_compute; reflexivity ]).
Qed.

Lemma temperature_normalised_witness :
  exists st,
    Env.__init__ Sample.json_loads Sample.py_int Sample.py_float
      environmental_payload = Ok st /\
    Env.temperature st = NFloat 296.
Proof.
  destruct (temperature_normalised Sample.json_loads Sample.py_int
              Sample.py_float environmental_payload environmental_data
              environmental_payload_valid)
    as (st & tact & Hinit & Hget & _ & Hnum).
  exists st. split; [exact Hinit|].
  vm_compute in Hget. injection Hget as <-.
  destruct Hnum as (f & Hf & ->); [discriminate|].
  assert (E : Sample.py_float (VStr "2960") = Ok 2960%float)
    by (vm_compute; reflexivity).
  rewrite E in Hf. injection Hf as <-. reflexivity.
Defined.

Lemma integer_fields_normalised_witness :
  exists st,
    Env.__init__ Sample.json_loads Sample.py_int Sample.py_float
      environmental_payload = Ok st /\
    Env.humidity st = 45%Z /\
    Env.volatile_organic_compounds st = 0%Z /\
    Env.nitrogen_dioxide st = 4%Z /\
    Env.sleep_timer st = 0%Z.
Proof.
  destruct (integer_fields_normalised Sample.json_loads Sample.py_int
              Sample.py_float environmental_payload environmental_data
              environmental_payload_valid)
    as (st & hact & pm25 & pm10 & va10 & noxl & p25r & p10r & sltm & Hinit
        & (Hhact & _ & _ & Hva10 & Hnoxl & _ & _ & Hsltm)
        & [_ Hh] & [Hs _] & [Hv _] & _ & _ & Hn & _).
  exists st. split; [exact Hinit|].
  vm_compute in Hhact, Hva10, Hnoxl, Hsltm.
  injection Hhact as <-. injection Hva10 as <-.
  injection Hnoxl as <-. injection Hsltm as <-.
  repeat split.
  - assert (H : Sample.py_int (VStr "0045") = Ok (Env.humidity st))
      by (apply Hh; discriminate).
    assert (E : Sample.py_int (VStr "0045") = Ok 45%Z)
      by (vm_compute; reflexivity).
    rewrite E in H. injection H as <-. reflexivity.
  - apply Hv. reflexivity.
  - assert (E : Sample.py_int (VStr "0004") = Ok 4%Z)
      by (vm_compute; reflexivity).
    rewrite E in Hn. injection Hn as <-. reflexivity.
  - apply Hs. reflexivity.
Defined.

Lemma conversion_error_propagates_witness :
  exists r v e,
    In r schema /\
    Env.__get_field_value unparsable_data (key r) = Ok v /\
    is_sentinel r v = false /\
    conversion_raises Sample.py_int Sample.py_float r v e /\
    Env.__init__ Sample.json_loads Sample.py_int Sample.py_float
      unparsable_payload = Raise e.
Proof.
  eapply (conversion_error_propagates Sample.json_loads Sample.py_int
            Sample.py_float unparsable_payload).
  - vm_compute. reflexivity.
  - vm_compute. reflexivity.
  - repeat constructor; eexists; vm_compute; reflexivity.
  - apply List.Exists_exists. exists (Rule "pm25" None ToInt).
    split; [simpl; tauto|]. exists (VStr "none").
    split; [vm_compute; reflexivity|]. split; [reflexivity|].
    intros [n Hn]. vm_compute in Hn. discriminate Hn.
Defined.

Lemma missing_key_fails_witness :
  let payload := Sample.json_text "{'data': {'tact': '2960', 'pm25': '5'}}" in
  Cool.__init__ Sample.json_loads payload
    = Raise (KeyError (VStr "product-state")) /\
  Env.__init__ Sample.json_loads Sample.py_int Sample.py_float payload
    = Raise (KeyError (VStr "hact")).
Proof.
  intros payload.
  pose (d := <["pm25" := VStr "5"]> (<["tact" := VStr "2960"]> ∅)
          : gmap string value).
  destruct (missing_key_fails Sample.json_loads Sample.py_int Sample.py_float
              payload (<["data" := VDict d]> ∅))
    as (Hstate & _ & _ & Hdata); [vm_compute; reflexivity|].
  split; [apply Hstate; reflexivity|].
  destruct (Hdata d (Rule "hact" (Some "OFF") ToInt)) as [_ Hfirst];
    [reflexivity | simpl; tauto | reflexivity |].
  apply (Hfirst [Rule "tact" (Some "OFF") ToTenths]
           (tail (tail schema))); [reflexivity|].
  repeat constructor. exists (VStr "2960").
  split; [vm_compute; reflexivity|].
  right. exists 2960%float. vm_compute. reflexivity.
Defined.

(** C6 as it is stated does not hold: the nested dict can omit a required
    key while the constructor raises something other than KeyError, because
    a field that is read before the missing key fails first.  With [tact] a
    word the environmental constructor raises ValueError although [hact] is
    missing; with [fpwr] an empty list the operational constructor raises
    IndexError although [fdir] is missing. *)
Lemma missing_key_other_exception :
  (let payload := Sample.json_text "{'data': {'tact': 'warm'}}" in
   exists m d : gmap string value,
     Sample.json_loads payload = Ok (VDict m) /\
     m !! "data" = Some (VDict d) /\
     d !! "hact" = None /\
     Env.__init__ Sample.json_loads Sample.py_int Sample.py_float payload
       = Raise ValueError /\
     forall k,
       Env.__init__ Sample.json_loads Sample.py_int Sample.py_float payload
         <> Raise (KeyError k)) /\
  (let payload := Sample.json_text "{'product-state': {'fpwr': []}}" in
   exists m d : gmap string value,
     Sample.json_loads payload = Ok (VDict m) /\
     m !! "product-state" = Some (VDict d) /\
     d !! "fdir" = None /\
     Cool.__init__ Sample.json_loads payload = Raise IndexError /\
     forall k, Cool.__init__ Sample.json_loads payload <> Raise (KeyError k)).
Proof.
  split; intros payload.
  - exists (<["data" := VDict (<["tact" := VStr "warm"]> ∅)]> ∅),
      (<["tact" := VStr "warm"]> ∅).
    assert (H : Env.__init__ Sample.json_loads Sample.py_int Sample.py_float
                  payload = Raise ValueError)
      by (vm_compute; reflexivity).
    split; [vm_compute; reflexivity|]. split; [reflexivity|].
    split; [reflexivity|]. split; [exact H|].
    intros k. rewrite H. discriminate.
  - exists (<["product-state" := VDict (<["fpwr" := VList []]> ∅)]> ∅),
      (<["fpwr" := VList []]> ∅).
    assert (H : Cool.__init__ Sample.json_loads payload = Raise IndexError)
      by (vm_compute; reflexivity).
    split; [vm_compute; reflexivity|]. split; [reflexivity|].
    split; [reflexivity|]. split; [exact H|].
    intros k. rewrite H. discriminate.
Qed.

(** ** The string representations *)

Section Repr.

Variable field_text : value -> string.
Variable py_str : value -> string.

Lemma printable_fields_filter (fields : list (string * value)) :
  printable_fields field_text fields =
  map (pair_text field_text) (List.filter (fun nv => non_null nv.2) fields).
Proof.
  induction fields as [|[name v] fields IH]; [reflexivity|].
  destruct v; simpl; rewrite IH; reflexivity.
Qed.

(** C9: the representation of either state is the class name and, between
    parentheses and joined by commas, one [name=value] entry for each field
    whose stored value is not None, and for no other field.  For the
    operational state the fields are the fifteen attributes under the names
    below, in this order, each written from its stored value.  For the
    environmental state they are the nine attributes below, each written
    from the [str] of its stored value; a stored value is a number, never
    None, so all nine are listed. *)
Theorem repr_lists_non_null_fields (cool : Cool.t) (env : Env.t) :
  let entry (nv : string * value) := nv.1 ++ "=" ++ field_text nv.2 in
  let cool_stored :=
    [("fan_power", Cool._fan_power cool);
     ("front_direction", Cool._front_direction cool);
     ("auto_mode", Cool._auto_mode cool);
     ("oscillation_status", Cool._oscillation_status cool);
     ("oscillation", Cool._oscillation cool);
     ("night_mode", Cool._night_mode cool);
     ("continuous_monitoring", Cool._continuous_monitoring cool);
     ("fan_state", Cool._fan_state cool);
     ("night_mode_speed", Cool._night_mode_speed cool);
     ("speed", Cool._speed cool);
     ("carbon_filter_state", Cool._carbon_filter_state cool);
     ("hepa_filter_state", Cool._hepa_filter_state cool);
     ("sleep_timer", Cool._sleep_timer cool);
     ("oscillation_angle_low", Cool._oscillation_angle_low cool);
     ("oscillation_angle_high", Cool._oscillation_angle_high cool)] in
  let env_stored :=
    [("temperature", value_of_number (Env._temperature env));
     ("humidity", VInt (Env._humidity env));
     ("particulate_matter_25", VInt (Env._particulate_matter_25 env));
     ("particulate_matter_10", VInt (Env._particulate_matter_10 env));
     ("volatile_organic_compounds",
       VInt (Env._volatile_organic_compounds env));
     ("nitrogen_dioxide", VInt (Env._nitrogen_dioxide env));
     ("p25r", VInt (Env._p25r env));
     ("p10r", VInt (Env._p10r env));
     ("sleep_timer", VInt (Env._sleep_timer env))] in
  let listed := List.filter (fun nv => non_null nv.2) cool_stored in
  Cool.__repr__ field_text cool =
    "DysonPureCoolV2State(" ++ String.concat "," (map entry listed) ++ ")" /\
  (forall nv, In nv listed <-> In nv cool_stored /\ nv.2 <> VNone) /\
  Env.__repr__ py_str field_text env =
    "DysonEnvironmentalSensorV2State("
      ++ String.concat ","
           (map (fun nv => entry (nv.1, VStr (py_str nv.2))) env_stored)
      ++ ")" /\
  Forall (fun nv => nv.2 <> VNone) env_stored.
Proof.
  cbv zeta. split; [|split; [|split]].
  - unfold Cool.__repr__. rewrite printable_fields_filter. reflexivity.
  - intros [name v]. rewrite filter_In. cbn [snd].
    split; intros [Hin Hv]; (split; [exact Hin|]).
    + intros ->. discriminate Hv.
    + destruct v; try reflexivity. contradiction Hv. reflexivity.
  - unfold Env.__repr__. rewrite printable_fields_filter. reflexivity.
  - destruct (Env._temperature env); repeat constructor; discriminate.
Qed.

End Repr.

Lemma repr_lists_non_null_fields_witness :
  let text (v : value) :=
    match v with
    | VStr s => s
    | _ => EmptyString
    end in
  let cool :=
    Cool.Build (VDict ∅) VNone (VStr "ON") (VStr "OFF") VNone (VStr "ON")
      (VStr "OFF") (VStr "ON") (VStr "FAN") (VStr "0004") (VStr "0005")
      (VStr "0100") (VStr "0100") (VStr "OFF") (VStr "0063") (VStr "0243") in
  Cool.__repr__ text cool =
  "DysonPureCoolV2State(front_direction=ON,auto_mode=OFF,oscillation=ON,"
    ++ "night_mode=OFF,continuous_monitoring=ON,fan_state=FAN,"
    ++ "night_mode_speed=0004,speed=0005,carbon_filter_state=0100,"
    ++ "hepa_filter_state=0100,sleep_timer=OFF,oscillation_angle_low=0063,"
    ++ "oscillation_angle_high=0243)".
Proof.
  intros text cool.
  rewrite (proj1 (repr_lists_non_null_fields text text cool
                    (Env.Build (NInt 0) 0 0 0 0 0 0 0 0))).
  reflexivity.
Defined.

(** * Further properties of the module *)

(** ** Traversals *)

Lemma traverse_Ok_Forall {A B : Type} (f : A -> result B) (l : list A)
    (bs : list B) :
  traverse f l = Ok bs ->
  Forall (fun a => exists b, f a = Ok b) l /\ length bs = length l.
Proof.
  revert bs. induction l as [|a l IH]; intros bs; simpl.
  - intros [= <-]. split; [constructor | reflexivity].
  - intros H. apply bind_Ok in H as (b & Hb & H).
    apply bind_Ok in H as (bs' & Hbs & [= <-]).
    destruct (IH bs' Hbs) as [Hall Hlen].
    split; [constructor; eauto | simpl; congruence].
Qed.

Lemma Forall_traverse_Ok {A B : Type} (f : A -> result B) (l : list A) :
  Forall (fun a => exists b, f a = Ok b) l ->
  exists bs, traverse f l = Ok bs.
Proof.
  induction 1 as [|a l [b Hb] _ [bs Hbs]]; simpl.
  - eexists. reflexivity.
  - rewrite Hb, Hbs. eexists. reflexivity.
Qed.

Lemma traverse_Raise_inv {A B : Type} (f : A -> result B) (l : list A)
    (e : exn) :
  traverse f l = Raise e -> exists a, In a l /\ f a = Raise e.
Proof.
  induction l as [|a l IH]; simpl; [discriminate|].
  destruct (f a) as [b|e'] eqn:Ha; simpl.
  - destruct (traverse f l) as [bs|e'']; simpl; [discriminate|].
    intros [= ->]. destruct (IH eq_refl) as (a' & Hin & Ha').
    exists a'. auto.
  - intros [= ->]. exists a. auto.
Qed.

Lemma traverse_ext {A B : Type} (f g : A -> result B) (l : list A) :
  (forall a, In a l -> f a = g a) -> traverse f l = traverse g l.
Proof.
  induction l as [|a l IH]; intros H; simpl; [reflexivity|].
  rewrite (H a) by (left; reflexivity).
  rewrite IH by (intros a' Ha'; apply H; right; exact Ha').
  reflexivity.
Qed.

(** ** The field extractor, read backwards *)

Lemma get_field_value_Raise_inv (d : gmap string value) (k : string)
    (e : exn) :
  Cool._get_field_value (VDict d) k = Raise e ->
  (d !! k = None /\ e = KeyError (VStr k)) \/
  (exists l, d !! k = Some (VList l) /\ length l < 2 /\ e = IndexError).
Proof.
  rewrite get_field_value_dict.
  destruct (d !! k) as [v|]; [|intros [= <-]; left; auto].
  destruct v; try discriminate.
  destruct (l !! 1%nat) eqn:Hl; [discriminate|].
  intros [= <-]. right. exists l. repeat split.
  apply lookup_ge_None in Hl. lia.
Qed.

(** A key is usable when it is present and its value is not a list with
    fewer than two elements. *)
Lemma get_field_value_Ok_shape (d : gmap string value) (k : string) :
  (exists x, Cool._get_field_value (VDict d) k = Ok x) <->
  (exists v, d !! k = Some v /\ forall l, v = VList l -> 2 <= length l).
Proof.
  rewrite get_field_value_dict. split.
  - intros [x H]. destruct (d !! k) as [v|]; [|discriminate].
    exists v. split; [reflexivity|]. intros l ->.
    destruct (l !! 1%nat) eqn:Hl; [|discriminate].
    apply lookup_lt_Some in Hl. lia.
  - intros (v & -> & Hv). destruct v; try (eexists; reflexivity).
    specialize (Hv l eq_refl).
    destruct l as [|a [|b l]]; simpl in Hv; try lia.
    eexists. reflexivity.
Qed.

(** ** The operational constructor, success and failure *)

Section Operational.

Variable json_loads : string -> result value.

(** X1: the operational constructor returns [st] exactly when the payload
    decodes, the decoded message has [product-state], which [st] keeps as
    [_state], and each of the fifteen properties of [st] is what the field
    extractor returns for its key: the values are stored as they are. *)
Theorem operational_init_Ok (payload : string) (st : Cool.t) :
  Cool.__init__ json_loads payload = Ok st <->
  exists json_message,
    json_loads payload = Ok json_message /\
    subscript json_message (VStr "product-state") = Ok (Cool._state st) /\
    let get := Cool._get_field_value (Cool._state st) in
    get "fpwr" = Ok (Cool.fan_power st) /\
    get "fdir" = Ok (Cool.front_direction st) /\
    get "auto" = Ok (Cool.auto_mode st) /\
    get "oscs" = Ok (Cool.oscillation_status st) /\
    get "oson" = Ok (Cool.oscillation st) /\
    get "nmod" = Ok (Cool.night_mode st) /\
    get "rhtm" = Ok (Cool.continuous_monitoring st) /\
    get "fnst" = Ok (Cool.fan_state st) /\
    get "nmdv" = Ok (Cool.night_mode_speed st) /\
    get "fnsp" = Ok (Cool.speed st) /\
    get "cflr" = Ok (Cool.carbon_filter_state st) /\
    get "hflr" = Ok (Cool.hepa_filter_state st) /\
    get "sltm" = Ok (Cool.sleep_timer st) /\
    get "osal" = Ok (Cool.oscillation_angle_low st) /\
    get "osau" = Ok (Cool.oscillation_angle_high st).
Proof.
  unfold Cool.__init__. split.
  - intros H.
    apply bind_Ok in H as (json_message & Hload & H).
    apply bind_Ok in H as (state & Hstate & H).
    repeat
      match type of H with
      | bind _ _ = Ok _ => apply bind_Ok in H as (? & ? & H)
      end.
    injection H as <-. exists json_message. cbn.
    repeat split; assumption.
  - intros (json_message & Hload & Hstate & H). cbv zeta in H.
    destruct H as (H1 & H2 & H3 & H4 & H5 & H6 & H7 & H8 & H9 & H10 & H11
                   & H12 & H13 & H14 & H15).
    rewrite Hload. cbn [bind]. rewrite Hstate. cbn [bind].
    rewrite H1, H2, H3, H4, H5, H6, H7, H8, H9, H10, H11, H12, H13, H14, H15.
    cbn [bind]. destruct st. reflexivity.
Qed.

(** X2: when the payload decodes to a dict whose [product-state] is a dict,
    the operational constructor returns a state exactly when each of the
    fifteen keys is present with a value that is not a list of fewer than
    two elements. *)
Theorem operational_init_succeeds_iff (payload : string)
    (m d : gmap string value) :
  json_loads payload = Ok (VDict m) ->
  m !! "product-state" = Some (VDict d) ->
  (exists st, Cool.__init__ json_loads payload = Ok st) <->
  Forall (fun k => exists v, d !! k = Some v /\
                             forall l, v = VList l -> 2 <= length l) keys.
Proof.
  intros Hload Hstate.
  rewrite init_refines_keys. unfold init_by_keys.
  rewrite Hload. cbn [bind]. rewrite subscript_dict, Hstate. cbn [bind].
  split.
  - intros [st H]. apply bind_Ok in H as (vs & Hvs & _).
    apply traverse_Ok_Forall in Hvs as [Hall _].
    eapply Forall_impl; [exact Hall|]. cbv beta.
    intros k Hk. apply get_field_value_Ok_shape. exact Hk.
  - intros Hall.
    assert (Hget : Forall (fun k => exists x,
                             Cool._get_field_value (VDict d) k = Ok x) keys).
    { eapply Forall_impl; [exact Hall|]. cbv beta.
      intros k Hk. apply get_field_value_Ok_shape. exact Hk. }
    destruct (Forall_traverse_Ok _ _ Hget) as [vs Hvs]. rewrite Hvs.
    apply traverse_Ok_Forall in Hvs as [_ Hlen]. cbn [bind].
    do 15 (destruct vs as [|? vs]; [discriminate Hlen|]).
    destruct vs; [|discriminate Hlen].
    eexists. reflexivity.
Qed.

(** X3: when the payload decodes to a dict whose [product-state] is a dict,
    the only exceptions of the operational constructor are KeyError for one
    of the fifteen keys, which is then missing, and IndexError, one of the
    fifteen keys then holding a list of fewer than two elements. *)
Theorem operational_init_exceptions (payload : string)
    (m d : gmap string value) (e : exn) :
  json_loads payload = Ok (VDict m) ->
  m !! "product-state" = Some (VDict d) ->
  Cool.__init__ json_loads payload = Raise e ->
  exists k, In k keys /\
    ((d !! k = None /\ e = KeyError (VStr k)) \/
     (exists l, d !! k = Some (VList l) /\ length l < 2 /\ e = IndexError)).
Proof.
  intros Hload Hstate.
  rewrite init_refines_keys. unfold init_by_keys.
  rewrite Hload. cbn [bind]. rewrite subscript_dict, Hstate. cbn [bind].
  destruct (traverse (Cool._get_field_value (VDict d)) keys) as [vs|e']
    eqn:Hvs; cbn [bind].
  - apply traverse_Ok_Forall in Hvs as [_ Hlen].
    do 15 (destruct vs as [|? vs]; [discriminate Hlen|]).
    destruct vs; [discriminate | discriminate Hlen].
  - intros [= ->]. apply traverse_Raise_inv in Hvs as (k & Hin & Hk).
    exists k. split; [exact Hin|].
    apply get_field_value_Raise_inv. exact Hk.
Qed.

End Operational.

(** ** The environmental constructor, success and failure *)

Section EnvironmentalMore.

Variable json_loads : string -> result value.
Variable py_int : value -> result Z.
Variable py_float : value -> result float.

Lemma read_Ok_valid (data : value) (r : rule) (w : value) :
  read py_int py_float data r = Ok w -> valid_field py_int py_float data r.
Proof.
  unfold read, normalise, valid_field, numeric. intros H.
  apply bind_Ok in H as (v & Hget & H). exists v. split; [exact Hget|].
  destruct (is_sentinel r v); [left; reflexivity|]. right.
  destruct (conv r); apply bind_Ok in H as (x & Hx & _); eauto.
Qed.

Lemma read_Raise_inv (d : gmap string value) (r : rule) (e : exn) :
  read py_int py_float (VDict d) r = Raise e ->
  (d !! key r = None /\ e = KeyError (VStr (key r))) \/
  (exists l, d !! key r = Some (VList l) /\ length l < 2 /\ e = IndexError) \/
  (exists v, Env.__get_field_value (VDict d) (key r) = Ok v /\
             is_sentinel r v = false /\
             conversion_raises py_int py_float r v e).
Proof.
  intros H.
  destruct (Env.__get_field_value (VDict d) (key r)) as [v|e'] eqn:Hget.
  - right. right. exists v. split; [reflexivity|].
    exact (read_raise_conversion py_int py_float (VDict d) r v e Hget H).
  - unfold read in H. rewrite Hget in H. injection H as ->.
    destruct (get_field_value_Raise_inv d (key r) e Hget) as [Hk|Hk];
      [left | right; left]; exact Hk.
Qed.

(** X4: the environmental constructor returns a state exactly when the
    payload is valid: it decodes, the decoded message has [data], and each
    of the nine fields extracts to its sentinel or to a value that its
    conversion accepts.  No other payload yields an object. *)
Theorem environmental_init_succeeds_iff (payload : string) :
  (exists st, Env.__init__ json_loads py_int py_float payload = Ok st) <->
  (exists data, valid_environmental json_loads py_int py_float payload data).
Proof.
  split.
  - intros [st H]. rewrite init_refines_schema in H.
    unfold init_by_schema in H.
    apply bind_Ok in H as (json_message & Hload & H).
    apply bind_Ok in H as (data & Hdata & H).
    apply bind_Ok in H as (vs & Hvs & _).
    exists data, json_message. split; [exact Hload|]. split; [exact Hdata|].
    apply traverse_Ok_Forall in Hvs as [Hall _].
    eapply Forall_impl; [exact Hall|]. cbv beta.
    intros r [w Hw]. exact (read_Ok_valid data r w Hw).
  - intros [data Hvalid].
    destruct (valid_init json_loads py_int py_float payload data Hvalid)
      as (tact & hact & pm25 & pm10 & va10 & noxl & p25r & p10r & sltm
          & t & h & a & b & c & d & e & f & g & _ & _ & Hinit).
    eexists. exact Hinit.
Qed.

(** X5: when the payload decodes to a dict whose [data] is a dict, the only
    exceptions of the environmental constructor are KeyError for a missing
    field of the table, IndexError for a field that holds a list of fewer
    than two elements, and what [int] or [float] raises on an extracted
    value that is not the sentinel of its field. *)
Theorem environmental_init_exceptions (payload : string)
    (m d : gmap string value) (e : exn) :
  json_loads payload = Ok (VDict m) ->
  m !! "data" = Some (VDict d) ->
  Env.__init__ json_loads py_int py_float payload = Raise e ->
  exists r, In r schema /\
    ((d !! key r = None /\ e = KeyError (VStr (key r))) \/
     (exists l, d !! key r = Some (VList l) /\ length l < 2 /\
                e = IndexError) \/
     (exists v, Env.__get_field_value (VDict d) (key r) = Ok v /\
                is_sentinel r v = false /\
                conversion_raises py_int py_float r v e)).
Proof.
  intros Hload Hdata Hinit.
  destruct (traverse (read py_int py_float (VDict d)) schema) as [vs|e']
    eqn:Hvs.
  - exfalso.
    assert (Hvalid : valid_environmental json_loads py_int py_float payload
                       (VDict d)).
    { exists (VDict m). split; [exact Hload|].
      split; [rewrite subscript_dict, Hdata; reflexivity|].
      apply traverse_Ok_Forall in Hvs as [Hall _].
      eapply Forall_impl; [exact Hall|]. cbv beta.
      intros r [w Hw]. exact (read_Ok_valid (VDict d) r w Hw). }
    destruct (valid_init json_loads py_int py_float payload (VDict d) Hvalid)
      as (tact & hact & pm25 & pm10 & va10 & noxl & p25r & p10r & sltm
          & t & h & a & b & c & d' & e0 & f & g & _ & _ & Hok).
    congruence.
  - rewrite init_refines_schema in Hinit. unfold init_by_schema in Hinit.
    rewrite Hload in Hinit. cbn [bind] in Hinit.
    rewrite subscript_dict, Hdata in Hinit. cbn [bind] in Hinit.
    rewrite Hvs in Hinit. injection Hinit as ->.
    apply traverse_Raise_inv in Hvs as (r & Hin & Hr).
    exists r. split; [exact Hin|]. exact (read_Raise_inv d r e Hr).
Qed.

(** X6: the environmental state depends on the nine fields of [data] and on
    nothing else in the payload: two payloads that decode to dicts whose
    [data] dicts agree on the nine keys give the same state or the same
    exception.  The message tag and any further key are not looked at. *)
Theorem environmental_init_reads_nine_fields (payload1 payload2 : string)
    (m1 d1 m2 d2 : gmap string value) :
  json_loads payload1 = Ok (VDict m1) ->
  m1 !! "data" = Some (VDict d1) ->
  json_loads payload2 = Ok (VDict m2) ->
  m2 !! "data" = Some (VDict d2) ->
  (forall r, In r schema -> d1 !! key r = d2 !! key r) ->
  Env.__init__ json_loads py_int py_float payload1 =
  Env.__init__ json_loads py_int py_float payload2.
Proof.
  intros Hload1 Hdata1 Hload2 Hdata2 Hsame.
  rewrite !init_refines_schema. unfold init_by_schema.
  rewrite Hload1, Hload2. cbn [bind].
  rewrite !subscript_dict, Hdata1, Hdata2. cbn [bind].
  rewrite (traverse_ext (read py_int py_float (VDict d1))
             (read py_int py_float (VDict d2)) schema); [reflexivity|].
  intros r Hr. unfold read.
  rewrite !environmental_get_field_value_dict, (Hsame r Hr). reflexivity.
Qed.

End EnvironmentalMore.

(** ** What else the entry points do *)

Lemma subscript_str_Raise (v : value) (k : string) (e : exn) :
  subscript v (VStr k) = Raise e <->
  ((forall d, v <> VDict d) /\ e = TypeError) \/
  (exists m, v = VDict m /\ m !! k = None /\ e = KeyError (VStr k)).
Proof.
  split.
  - destruct v; simpl;
      try (intros [= <-]; left; split; [discriminate | reflexivity]).
    destruct (d !! k) eqn:Hk; [discriminate|].
    intros [= <-]. right. exists d. auto.
  - intros [[Hv ->] | (m & -> & Hk & ->)].
    + destruct v; try reflexivity. exfalso. apply (Hv d). reflexivity.
    + simpl. rewrite Hk. reflexivity.
Qed.

(** X7: the field extractor returns [x] for a key of a dict exactly when the
    key is present and either its value is not a list and is [x], or its
    value is a list whose element at index 1 is [x]; this holds for both
    copies.  Element 0 of a list and defaults are never returned. *)
Theorem get_field_value_Ok_iff (d : gmap string value) (k : string)
    (x : value) :
  let returned v :=
    (isinstance_list v = false /\ x = v) \/
    (exists l, v = VList l /\ l !! 1%nat = Some x) in
  (Cool._get_field_value (VDict d) k = Ok x <->
   exists v, d !! k = Some v /\ returned v) /\
  (Env.__get_field_value (VDict d) k = Ok x <->
   exists v, d !! k = Some v /\ returned v).
Proof.
  cbv zeta.
  rewrite environmental_get_field_value_dict, get_field_value_dict.
  assert (H : match d !! k with
              | Some (VList l) =>
                  match l !! 1%nat with
                  | Some x0 => Ok x0
                  | None => Raise IndexError
                  end
              | Some v => Ok v
              | None => Raise (KeyError (VStr k))
              end = Ok x <->
              exists v, d !! k = Some v /\
                ((isinstance_list v = false /\ x = v) \/
                 (exists l, v = VList l /\ l !! 1%nat = Some x))).
  { split.
    - destruct (d !! k) as [v|]; [|discriminate].
      intros H. exists v. split; [reflexivity|].
      destruct v; try (injection H as <-; left; split; reflexivity).
      right. exists l. split; [reflexivity|].
      destruct (l !! 1%nat); [injection H as <-; reflexivity | discriminate].
    - intros (v & -> & [[Hv ->] | (l & -> & Hl)]).
      + destruct v; try reflexivity; discriminate.
      + rewrite Hl. reflexivity. }
  split; exact H.
Qed.

Section EntryPoints.

Variable json_loads : string -> result value.
Variable py_int : value -> result Z.
Variable py_float : value -> result float.

(** Both classifiers decode, read [msg] and test membership in a list of
    literals. *)
Lemma classifier_Raise (tags : list string) (payload : string) (e : exn) :
  (let! json_message := json_loads payload in
   let! tag := subscript json_message (VStr "msg") in
   Ok (in_strs tag tags)) = Raise e <->
  json_loads payload = Raise e \/
  (exists v, json_loads payload = Ok v /\
             (forall d, v <> VDict d) /\ e = TypeError) \/
  (exists m, json_loads payload = Ok (VDict m) /\
             m !! "msg" = None /\ e = KeyError (VStr "msg")).
Proof.
  destruct (json_loads payload) as [v|e'] eqn:Hload; cbn [bind].
  - destruct (subscript v (VStr "msg")) as [tag|e''] eqn:Htag; cbn [bind].
    + split; [discriminate|].
      intros [H | [(v0 & H0 & Hv & ->) | (m & H0 & Hk & ->)]].
      * discriminate H.
      * injection H0 as <-.
        assert (Hr : subscript v (VStr "msg") = Raise TypeError)
          by (apply subscript_str_Raise; left; auto).
        congruence.
      * injection H0 as ->. simpl in Htag. rewrite Hk in Htag.
        discriminate Htag.
    + split.
      * intros [= ->]. right.
        apply subscript_str_Raise in Htag as [[Hv ->] | (m & -> & Hk & ->)];
          [left; exists v | right; exists m]; auto.
      * intros [H | [(v0 & H0 & Hv & ->) | (m & H0 & Hk & ->)]].
        -- discriminate H.
        -- injection H0 as <-.
           assert (Hr : subscript v (VStr "msg") = Raise TypeError)
             by (apply subscript_str_Raise; left; auto).
           congruence.
        -- injection H0 as ->. simpl in Htag. rewrite Hk in Htag.
           congruence.
  - split.
    + intros [= ->]. left. reflexivity.
    + intros [H | [(v0 & H & _) | (m & H & _)]]; congruence.
Qed.

(** X8: each classifier raises [e] exactly when decoding raises [e], or the
    decoded value is not a dict and [e] is TypeError, or it is a dict
    without the key [msg] and [e] is KeyError for [msg].  The two
    classifiers therefore raise on the same payloads. *)
Theorem classifier_exceptions (payload : string) (e : exn) :
  let cause :=
    json_loads payload = Raise e \/
    (exists v, json_loads payload = Ok v /\
               (forall d, v <> VDict d) /\ e = TypeError) \/
    (exists m, json_loads payload = Ok (VDict m) /\
               m !! "msg" = None /\ e = KeyError (VStr "msg")) in
  (Cool.is_state_message json_loads payload = Raise e <-> cause) /\
  (Env.is_environmental_state_message json_loads payload = Raise e
   <-> cause).
Proof.
  cbv zeta. split.
  - exact (classifier_Raise ["CURRENT-STATE"; "STATE-CHANGE"] payload e).
  - exact (classifier_Raise ["ENVIRONMENTAL-CURRENT-SENSOR-DATA"] payload e).
Qed.

(** X9: no payload is accepted by both classifiers: when one of them
    returns True the other returns False. *)
Theorem classifiers_exclusive (payload : string) :
  (Cool.is_state_message json_loads payload = Ok true ->
   Env.is_environmental_state_message json_loads payload = Ok false) /\
  (Env.is_environmental_state_message json_loads payload = Ok true ->
   Cool.is_state_message json_loads payload = Ok false).
Proof.
  unfold Cool.is_state_message, Env.is_environmental_state_message.
  destruct (json_loads payload) as [v|]; cbn [bind];
    [|split; discriminate].
  destruct (subscript v (VStr "msg")) as [tag|]; cbn [bind];
    [|split; discriminate].
  unfold in_strs. cbn [existsb]. rewrite !orb_false_r.
  split; intros [= H]; f_equal.
  - apply orb_true_iff in H. rewrite !eq_str_true in H.
    destruct H as [-> | ->]; reflexivity.
  - apply eq_str_true in H. subst tag. reflexivity.
Qed.

(** X10: a payload that decodes to something other than a dict makes both
    constructors raise TypeError, and so does a [product-state]
    (respectively [data]) that is not a dict. *)
Theorem constructors_type_error (payload : string) :
  (forall v, json_loads payload = Ok v -> (forall d, v <> VDict d) ->
     Cool.__init__ json_loads payload = Raise TypeError /\
     Env.__init__ json_loads py_int py_float payload = Raise TypeError) /\
  (forall (m : gmap string value) v,
     json_loads payload = Ok (VDict m) ->
     m !! "product-state" = Some v -> (forall d, v <> VDict d) ->
     Cool.__init__ json_loads payload = Raise TypeError) /\
  (forall (m : gmap string value) v,
     json_loads payload = Ok (VDict m) ->
     m !! "data" = Some v -> (forall d, v <> VDict d) ->
     Env.__init__ json_loads py_int py_float payload = Raise TypeError).
Proof.
  unfold Cool.__init__, Env.__init__. split; [|split].
  - intros v Hload Hv. rewrite Hload. cbn [bind].
    assert (Hs : forall k, subscript v (VStr k) = Raise TypeError)
      by (intros k; apply subscript_str_Raise; left; auto).
    rewrite !Hs. split; reflexivity.
  - intros m v Hload Hstate Hv. rewrite Hload. cbn [bind].
    rewrite subscript_dict, Hstate. cbn [bind].
    unfold Cool._get_field_value.
    assert (Hs : forall k, subscript v (VStr k) = Raise TypeError)
      by (intros k; apply subscript_str_Raise; left; auto).
    rewrite Hs. reflexivity.
  - intros m v Hload Hdata Hv. rewrite Hload. cbn [bind].
    rewrite subscript_dict, Hdata. cbn [bind].
    unfold Env.__get_field_value.
    assert (Hs : forall k, subscript v (VStr k) = Raise TypeError)
      by (intros k; apply subscript_str_Raise; left; auto).
    rewrite Hs. reflexivity.
Qed.

(** X11: the properties of the operational state depend on the fifteen keys
    of [product-state] and on nothing else in the payload: when two payloads
    decode to dicts whose [product-state] dicts agree on the fifteen keys,
    a state for the first comes with a state for the second that has the
    same fifteen properties, and an exception for the first is the
    exception for the second. *)
Theorem operational_init_reads_fifteen_keys (payload1 payload2 : string)
    (m1 d1 m2 d2 : gmap string value) :
  json_loads payload1 = Ok (VDict m1) ->
  m1 !! "product-state" = Some (VDict d1) ->
  json_loads payload2 = Ok (VDict m2) ->
  m2 !! "product-state" = Some (VDict d2) ->
  (forall k, In k keys -> d1 !! k = d2 !! k) ->
  (forall st1, Cool.__init__ json_loads payload1 = Ok st1 ->
     exists st2, Cool.__init__ json_loads payload2 = Ok st2 /\
                 Cool.repr_fields st2 = Cool.repr_fields st1 /\
                 Cool._state st2 = VDict d2) /\
  (forall e, Cool.__init__ json_loads payload1 = Raise e ->
     Cool.__init__ json_loads payload2 = Raise e).
Proof.
  intros Hload1 Hstate1 Hload2 Hstate2 Hsame.
  rewrite !init_refines_keys. unfold init_by_keys.
  rewrite Hload1, Hload2. cbn [bind].
  rewrite !subscript_dict, Hstate1, Hstate2. cbn [bind].
  rewrite (traverse_ext (Cool._get_field_value (VDict d1))
             (Cool._get_field_value (VDict d2)) keys).
  2:{ intros k Hk. rewrite !get_field_value_dict, (Hsame k Hk). reflexivity. }
  destruct (traverse (Cool._get_field_value (VDict d2)) keys) as [vs|e'];
    cbn [bind]; [|split; [discriminate | auto]].
  do 15 (destruct vs as [|? vs]; [split; [discriminate | auto]|]).
  destruct vs; [|split; [discriminate | auto]].
  split; [|discriminate].
  intros st1 [= <-]. eexists. split; [reflexivity|]. split; reflexivity.
Qed.

End EntryPoints.

(** ** Closed examples of the further properties *)

Lemma operational_payload_decodes :
  Sample.json_loads operational_payload = Ok (VDict operational_message).
Proof. vm_compute. reflexivity. Qed.

Lemma operational_init_Ok_witness :
  Cool.__init__ Sample.json_loads operational_payload = Ok operational_state.
Proof.
  apply (proj2 (operational_init_Ok Sample.json_loads operational_payload
                  operational_state)).
  exists (VDict operational_message).
  split; [exact operational_payload_decodes|].
  split; [reflexivity|].
  cbv zeta. repeat split; reflexivity.
Defined.

Lemma operational_init_succeeds_iff_witness :
  exists st, Cool.__init__ Sample.json_loads operational_payload = Ok st.
Proof.
  apply (proj2 (operational_init_succeeds_iff Sample.json_loads
                  operational_payload operational_message
                  operational_product_state
                  operational_payload_decodes eq_refl)).
  repeat constructor;
    (eexists; split; [reflexivity|];
     intros l H; try discriminate H; injection H as <-; simpl; lia).
Defined.

Lemma operational_init_exceptions_witness :
  exists k, In k keys /\
    (((<["fpwr" := VList [VStr "ON"]]> (<["fdir" := VStr "ON"]> ∅)
        : gmap string value) !! k = None /\
      IndexError = KeyError (VStr k)) \/
     (exists l,
        (<["fpwr" := VList [VStr "ON"]]> (<["fdir" := VStr "ON"]> ∅)
          : gmap string value) !! k = Some (VList l) /\
        length l < 2 /\ IndexError = IndexError)).
Proof.
  apply (operational_init_exceptions Sample.json_loads
           (Sample.json_text
              "{'product-state': {'fpwr': ['ON'], 'fdir': 'ON'}}")
           (<["product-state" :=
                VDict (<["fpwr" := VList [VStr "ON"]]>
                         (<["fdir" := VStr "ON"]> ∅))]> ∅)).
  - vm_compute. reflexivity.
  - reflexivity.
  - vm_compute. reflexivity.
Defined.

Lemma environmental_init_succeeds_iff_witness :
  exists st,
    Env.__init__ Sample.json_loads Sample.py_int Sample.py_float
      environmental_payload = Ok st.
Proof.
  apply (proj2 (environmental_init_succeeds_iff Sample.json_loads
                  Sample.py_int Sample.py_float environmental_payload)).
  exists environmental_data. exact environmental_payload_valid.
Defined.

Lemma environmental_init_exceptions_witness :
  exists r, In r schema /\
    (((<["tact" := VStr "warm"]> ∅ : gmap string value) !! key r = None /\
      ValueError = KeyError (VStr (key r))) \/
     (exists l,
        (<["tact" := VStr "warm"]> ∅ : gmap string value) !! key r
          = Some (VList l) /\
        length l < 2 /\ ValueError = IndexError) \/
     (exists v,
        Env.__get_field_value (VDict (<["tact" := VStr "warm"]> ∅)) (key r)
          = Ok v /\
        is_sentinel r v = false /\
        conversion_raises Sample.py_int Sample.py_float r v ValueError)).
Proof.
  apply (environmental_init_exceptions Sample.json_loads Sample.py_int
           Sample.py_float
           (Sample.json_text "{'data': {'tact': 'warm'}}")
           (<["data" := VDict (<["tact" := VStr "warm"]> ∅)]> ∅)).
  - vm_compute. reflexivity.
  - reflexivity.
  - vm_compute. reflexivity.
Defined.

Lemma environmental_init_reads_nine_fields_witness :
  Env.__init__ Sample.json_loads Sample.py_int Sample.py_float
    environmental_payload =
  Env.__init__ Sample.json_loads Sample.py_int Sample.py_float
    environmental_payload_more.
Proof.
  apply (environmental_init_reads_nine_fields Sample.json_loads
           Sample.py_int Sample.py_float
           environmental_payload environmental_payload_more
           environmental_message environmental_fields
           environmental_message_more
           (<["hcho" := VStr "NONE"]> environmental_fields)).
  - vm_compute. reflexivity.
  - reflexivity.
  - vm_compute. reflexivity.
  - reflexivity.
  - intros r Hr. simpl in Hr.
    repeat (destruct Hr as [<-|Hr]; [vm_compute; reflexivity|]).
    destruct Hr.
Defined.

Lemma get_field_value_Ok_iff_witness :
  Cool._get_field_value
    (VDict (<["fpwr" := VList [VStr "OFF"; VStr "ON"]]> ∅)) "fpwr"
  = Ok (VStr "ON").
Proof.
  apply (proj2 (proj1 (get_field_value_Ok_iff
                         (<["fpwr" := VList [VStr "OFF"; VStr "ON"]]> ∅)
                         "fpwr" (VStr "ON")))).
  exists (VList [VStr "OFF"; VStr "ON"]). split; [reflexivity|].
  right. exists [VStr "OFF"; VStr "ON"]. split; reflexivity.
Defined.

Lemma classifier_exceptions_witness :
  let payload := Sample.json_text "{'time': 'T'}" in
  Cool.is_state_message Sample.json_loads payload
    = Raise (KeyError (VStr "msg")) /\
  Env.is_environmental_state_message Sample.json_loads payload
    = Raise (KeyError (VStr "msg")).
Proof.
  intros payload.
  destruct (classifier_exceptions Sample.json_loads payload
              (KeyError (VStr "msg"))) as [Hcool Henv].
  assert (Hcause :
            exists m : gmap string value,
              Sample.json_loads payload = Ok (VDict m) /\
              m !! "msg" = None /\
              KeyError (VStr "msg") = KeyError (VStr "msg")).
  { exists (<["time" := VStr "T"]> ∅).
    split; [vm_compute; reflexivity|]. split; reflexivity. }
  split; [apply Hcool | apply Henv]; right; right; exact Hcause.
Defined.

Lemma classifiers_exclusive_witness :
  Env.is_environmental_state_message Sample.json_loads operational_payload
    = Ok false.
Proof.
  apply (proj1 (classifiers_exclusive Sample.json_loads operational_payload)).
  vm_compute. reflexivity.
Defined.

Lemma constructors_type_error_witness :
  let payload := Sample.json_text "[1, 2]" in
  Cool.__init__ Sample.json_loads payload = Raise TypeError /\
  Env.__init__ Sample.json_loads Sample.py_int Sample.py_float payload
    = Raise TypeError.
Proof.
  intros payload.
  apply (proj1 (constructors_type_error Sample.json_loads Sample.py_int
                  Sample.py_float payload) (VList [VInt 1; VInt 2])).
  - vm_compute. reflexivity.
  - discriminate.
Defined.

Lemma operational_init_reads_fifteen_keys_witness :
  exists st,
    Cool.__init__ Sample.json_loads operational_payload_more = Ok st /\
    Cool.repr_fields st = Cool.repr_fields operational_state.
Proof.
  destruct (operational_init_reads_fifteen_keys Sample.json_loads
              operational_payload operational_payload_more
              operational_message operational_product_state
              operational_message_more
              (<["ercd" := VStr "NONE"]> (<["wacd" := VStr "NONE"]>
                 operational_product_state)))
    as [Hok _].
  - exact operational_payload_decodes.
  - reflexivity.
  - vm_compute. reflexivity.
  - reflexivity.
  - intros k Hk. simpl in Hk.
    repeat (destruct Hk as [<-|Hk]; [vm_compute; reflexivity|]).
    destruct Hk.
  - destruct (Hok operational_state) as (st & Hst & Hfields & _).
    + vm_compute. reflexivity.
    + exists st. split; assumption.
Defined.
